(** * RSI utilities of the om1-runtime: a shallow embedding

    Sources embedded here:
    - [apps/om1-runtime/utils/rsi.py]: [calculate_rsi], [interpret_rsi];
    - [apps/om1-runtime/src/inputs/bitcoin_price/plugin.py]:
      [BitcoinPriceInput._interpret_rsi], the RSI part of [fetch];
    - [apps/om1-runtime/utils/sentiment.py];
    - [apps/om1-runtime/connectors/news_api_connector.py];
    - [apps/om1-runtime/src/inputs/news_sentiment/plugin.py];
    - [apps/om1-runtime/connectors/llm_connector.py]: [chat_completion],
      [generate];
    - [apps/om1-runtime/src/agent/runtime.py]: [_parse_signal_response],
      [_generate_signal], [_collect_inputs].

    Numbers.  The source computes with binary64 floats (Python [float],
    [numpy.float64]).  The embedding keeps the finite values as exact
    rationals [Q]: rounding and overflow are not modelled, every finite
    operation is the exact one.  The IEEE special values that numpy
    produces without raising (the mean of an empty slice, a division by
    zero) are kept as [NaN], [PInf], [NInf], so that the paths of
    [calculate_rsi] that run into them are traced as the source runs them.

    Errors.  Python exceptions are results [Raise e]; a returned value is
    [Ok v]. *)

From Stdlib Require Import QArith Qminmax Lqa ZArith Lia.
From stdpp Require Import gmap strings list.

Local Open Scope Z_scope.
Local Open Scope Q_scope.

(** ** Exceptions and results *)

Inductive exn : Set :=
| IndexError   (* sequence index out of range *)
| KeyError     (* missing dict key *)
| TypeError.   (* value of the wrong Python type *)

Inductive result (A : Type) : Type :=
| Ok (a : A)
| Raise (e : exn).

Arguments Ok {A} a.
Arguments Raise {A} e.

Definition rbind {A B : Type} (r : result A) (k : A -> result B) : result B :=
  match r with
  | Ok a => k a
  | Raise e => Raise e
  end.

Notation "x <- r ;; k" := (rbind r (fun x => k))
  (at level 100, r at next level, right associativity).

(** A list comprehension [[f(x) for x in l]]: elements are evaluated left
    to right and the first exception aborts the comprehension. *)
Fixpoint comprehension {A B : Type} (f : A -> result B) (l : list A)
  : result (list B) :=
  match l with
  | [] => Ok []
  | x :: t => y <- f x ;; ys <- comprehension f t ;; Ok (y :: ys)
  end.

(** ** Floats *)

Inductive npfloat : Set :=
| Fin (q : Q)   (* a finite value, kept exact *)
| PInf          (* +inf *)
| NInf          (* -inf *)
| NaN.

Definition Qltb (x y : Q) : bool :=
  match x ?= y with Lt => true | _ => false end.

Definition of_int (z : Z) : npfloat := Fin (inject_Z z).

Definition fopp (x : npfloat) : npfloat :=
  match x with
  | Fin a => Fin (- a)
  | PInf => NInf
  | NInf => PInf
  | NaN => NaN
  end.

(** [inf_signed pos] is the infinity of the given sign. *)
Definition inf_signed (pos : bool) : npfloat := if pos then PInf else NInf.

(** Product of an infinity of sign [pos] with the finite [a]. *)
Definition inf_times (pos : bool) (a : Q) : npfloat :=
  if Qeq_bool a 0 then NaN
  else inf_signed (if Qltb 0 a then pos else negb pos).

Definition fmul (x y : npfloat) : npfloat :=
  match x, y with
  | NaN, _ | _, NaN => NaN
  | Fin a, Fin b => Fin (a * b)
  | PInf, Fin b => inf_times true b
  | NInf, Fin b => inf_times false b
  | Fin a, PInf => inf_times true a
  | Fin a, NInf => inf_times false a
  | PInf, PInf | NInf, NInf => PInf
  | PInf, NInf | NInf, PInf => NInf
  end.

Definition fadd (x y : npfloat) : npfloat :=
  match x, y with
  | NaN, _ | _, NaN => NaN
  | Fin a, Fin b => Fin (a + b)
  | PInf, NInf | NInf, PInf => NaN
  | PInf, _ | _, PInf => PInf
  | NInf, _ | _, NInf => NInf
  end.

Definition fsub (x y : npfloat) : npfloat := fadd x (fopp y).

(** numpy's true division: dividing by zero does not raise (it warns) and
    yields an infinity, or [NaN] for 0/0.  The model has a single zero,
    which stands for +0.0: the zero divisors of [calculate_rsi] are
    [period] converted from the int 0 and [1 + rs], never -0.0. *)
Definition fdiv (x y : npfloat) : npfloat :=
  match x, y with
  | NaN, _ | _, NaN => NaN
  | Fin a, Fin b =>
      if Qeq_bool b 0 then
        if Qeq_bool a 0 then NaN else inf_signed (Qltb 0 a)
      else Fin (a / b)
  | Fin _, (PInf | NInf) => Fin 0
  | PInf, Fin b => inf_signed (Qle_bool 0 b)
  | NInf, Fin b => inf_signed (negb (Qle_bool 0 b))
  | (PInf | NInf), (PInf | NInf) => NaN
  end.

(** [x == 0] on floats. *)
Definition feq0 (x : npfloat) : bool :=
  match x with
  | Fin a => Qeq_bool a 0
  | _ => false
  end.

(** [x < y] on floats; any comparison with [NaN] is false. *)
Definition flt (x y : npfloat) : bool :=
  match x, y with
  | NaN, _ | _, NaN => false
  | Fin a, Fin b => Qltb a b
  | NInf, (Fin _ | PInf) => true
  | Fin _, PInf => true
  | _, _ => false
  end.

(** [x > y] *)
Definition fgt (x y : npfloat) : bool := flt y x.

(** ** Python sequences *)

(** [len(l)] *)
Definition len {A : Type} (l : list A) : Z := Z.of_nat (length l).

(** [l[i]]: a negative index counts from the end; out of range raises. *)
Definition py_index {A : Type} (l : list A) (i : Z) : result A :=
  let j := if (i <? 0)%Z then (i + len l)%Z else i in
  if ((j <? 0)%Z || (len l <=? j)%Z)%bool then Raise IndexError
  else match l !! Z.to_nat j with
       | Some x => Ok x
       | None => Raise IndexError
       end.

(** [l[:k]]: a negative stop counts from the end; the stop is clipped to
    the bounds, a slice never raises. *)
Definition py_slice_to {A : Type} (l : list A) (k : Z) : list A :=
  let stop := if (k <? 0)%Z then Z.max 0 (k + len l) else Z.min k (len l) in
  take (Z.to_nat stop) l.

(** [range(a, b)] *)
Definition py_range (a b : Z) : list Z :=
  map (fun k : nat => (a + Z.of_nat k)%Z) (seq 0 (Z.to_nat (b - a))).

(** ** numpy array operations used by [calculate_rsi] *)

(** [np.diff(a)]: [a[i+1] - a[i]], one element fewer than [a]. *)
Fixpoint np_diff (a : list Q) : list Q :=
  match a with
  | x :: (y :: _) as t => (y - x) :: np_diff t
  | _ => []
  end.

(** [np.where(deltas > 0, deltas, 0)] *)
Definition np_where_gains (deltas : list Q) : list Q :=
  map (fun d => if Qltb 0 d then d else 0) deltas.

(** [np.where(deltas < 0, -deltas, 0)] *)
Definition np_where_losses (deltas : list Q) : list Q :=
  map (fun d => if Qltb d 0 then - d else 0) deltas.

Definition np_sum (a : list Q) : Q := fold_left Qplus a 0.

(** [np.mean(a)]: [NaN] (with a warning, no exception) on an empty array. *)
Definition np_mean (a : list Q) : npfloat :=
  match a with
  | [] => NaN
  | _ => Fin (np_sum a / inject_Z (len a))
  end.

(** ** [utils/rsi.py] *)

(** An element of the [prices] argument: a number, or a candle dict.  The
    candles built by the price connector have numeric fields only. *)
Inductive pyobj : Type :=
| PyFloat (x : Q)
| PyDict (d : gmap string Q).

(** [isinstance(o, dict)] *)
Definition is_dict (o : pyobj) : bool :=
  match o with PyDict _ => true | PyFloat _ => false end.

(** [candle['close']] *)
Definition get_close (candle : pyobj) : result pyobj :=
  match candle with
  | PyDict d =>
      match d !! "close"%string with
      | Some x => Ok (PyFloat x)
      | None => Raise KeyError
      end
  | PyFloat _ => Raise TypeError    (* a float is not subscriptable *)
  end.

(** Conversion of one element by [np.array(prices, dtype=float)]. *)
Definition to_float (o : pyobj) : result Q :=
  match o with
  | PyFloat x => Ok x
  | PyDict _ => Raise TypeError
  end.

(** One pass of the smoothing loop, at index [i]. *)
Definition smooth_step (period : Z) (gains losses : list Q) (i : Z)
    (avg : npfloat * npfloat) : result (npfloat * npfloat) :=
  let '(avg_gain, avg_loss) := avg in
  g <- py_index gains i ;;
  let avg_gain :=
    fdiv (fadd (fmul avg_gain (of_int (period - 1))) (Fin g)) (of_int period) in
  l <- py_index losses i ;;
  let avg_loss :=
    fdiv (fadd (fmul avg_loss (of_int (period - 1))) (Fin l)) (of_int period) in
  Ok (avg_gain, avg_loss).

(** [for i in idx: ...] *)
Fixpoint smooth_loop (period : Z) (gains losses : list Q) (idx : list Z)
    (avg : npfloat * npfloat) : result (npfloat * npfloat) :=
  match idx with
  | [] => Ok avg
  | i :: rest =>
      avg' <- smooth_step period gains losses i avg ;;
      smooth_loop period gains losses rest avg'
  end.

(** Lines 32-46 of [calculate_rsi]: from the price array to the final
    pair [(avg_gain, avg_loss)]. *)
Definition smoothed_averages (prices : list Q) (period : Z)
  : result (npfloat * npfloat) :=
  let deltas := np_diff prices in
  let gains := np_where_gains deltas in
  let losses := np_where_losses deltas in
  let avg_gain := np_mean (py_slice_to gains period) in
  let avg_loss := np_mean (py_slice_to losses period) in
  smooth_loop period gains losses (py_range period (len deltas))
    (avg_gain, avg_loss).

(** Lines 48-56: from the final averages to the returned value. *)
Definition rsi_of_averages (avg : npfloat * npfloat) : npfloat :=
  let '(avg_gain, avg_loss) := avg in
  if feq0 avg_loss then Fin 100
  else
    let rs := fdiv avg_gain avg_loss in
    fsub (Fin 100) (fdiv (Fin 100) (fadd (Fin 1) rs)).

Definition calculate_rsi (prices : list pyobj) (period : Z) : result npfloat :=
  first <- py_index prices 0 ;;
  prices <- (if is_dict first then comprehension get_close prices
             else Ok prices) ;;
  if (len prices <? period + 1)%Z then Ok (Fin 50)
  else
    prices <- comprehension to_float prices ;;
    avg <- smoothed_averages prices period ;;
    Ok (rsi_of_averages avg).

Definition interpret_rsi (rsi : npfloat) : string :=
  if flt rsi (Fin 30) then "oversold"%string
  else if fgt rsi (Fin 70) then "overbought"%string
  else "neutral"%string.

(** ** [src/inputs/bitcoin_price/plugin.py] *)

Module BitcoinPriceInput.

(** Lines 66-71 of [fetch]: the RSI of the fetched candles, with the
    plugin's own neutral default on a short history. *)
Definition fetch_rsi (historical : list pyobj) (rsi_period : Z)
  : result npfloat :=
  if (rsi_period <=? len historical)%Z then
    closes <- comprehension get_close historical ;;
    calculate_rsi closes rsi_period
  else Ok (Fin 50).

Definition _interpret_rsi (rsi : npfloat) : string :=
  if flt rsi (Fin 30) then "oversold"%string
  else if fgt rsi (Fin 70) then "overbought"%string
  else "neutral"%string.

(** Lines 66-74 of [fetch]: the fields ['rsi'] and ['rsi_signal'] of the
    returned dict. *)
Definition fetch_rsi_signal (historical : list pyobj) (rsi_period : Z)
  : result (npfloat * string) :=
  rsi <- fetch_rsi historical rsi_period ;;
  Ok (rsi, _interpret_rsi rsi).

End BitcoinPriceInput.

(** A [prices] argument made of numbers only. *)
Definition floats (l : list Q) : list pyobj := map PyFloat l.

(** A [prices] argument made of candle dicts only. *)
Definition candles (l : list (gmap string Q)) : list pyobj := map PyDict l.

(** ** Inputs of the statements *)

(** [closes] is the list of the ['close'] fields of [cs], in order. *)
Definition closes_of (cs : list (gmap string Q)) (closes : list Q) : Prop :=
  Forall2 (fun (c : gmap string Q) x => c !! "close"%string = Some x) cs closes.


(** ** The finite track of [calculate_rsi]

    What lines 40-54 compute when every intermediate value is finite, on
    rationals; the lemmas below show when [calculate_rsi] stays on it. *)

(** The update of lines 45 and 46 on finite values. *)
Definition smoothQ (period : Z) (avg new : Q) : Q :=
  (avg * inject_Z (period - 1) + new) / inject_Z period.

(** The seed of lines 40 and 41 followed by the loop, on one array. *)
Definition averageQ (period : Z) (xs : list Q) : Q :=
  let p := Z.to_nat period in
  fold_left (smoothQ period) (drop p xs) (np_sum (take p xs) / inject_Z period).

(** Line 54 on finite values. *)
Definition rsiQ (avg_gain avg_loss : Q) : Q :=
  100 - 100 / (1 + avg_gain / avg_loss).

(** ** The algorithm of the specification, section 4.1

    The second definition of the RSI, written from the six steps of the
    specification and not from the source; [calculate_rsi] is compared
    with it below. *)

Module Wilder.









End Wilder.


(** ** [utils/sentiment.py]

    The VADER analyzer is an external library: its compound score is the
    parameter [compound], a float kept as an exact rational like every
    other float.  The values stored in an article dict are left abstract;
    [format_value] is how an f-string prints one. *)

(** [sum(l)] on a list of floats: from the int 0, left to right. *)
Definition py_sum (l : list Q) : Q := fold_left Qplus l 0.

(** [sum(1 for a in l if cond(a))] *)
Definition py_count {A : Type} (cond : A -> bool) (l : list A) : Z :=
  fold_left (fun n a => if cond a then (n + 1)%Z else n) l 0%Z.

Module Sentiment.

Record summary : Type := mk_summary {
  sentiment_score : Q;
  sentiment_label : string;
  article_count : Z;
  positive_count : Z;
  negative_count : Z;
  neutral_count : Z
}.

Section Analyzer.

Context {V : Type}.
Variable format_value : V -> string.
Variable compound : string -> Q.

(** [article.get(key, '')] as the f-string prints it. *)
Definition get_printed (article : gmap string V) (key : string) : string :=
  match article !! key with
  | Some v => format_value v
  | None => ""%string
  end.

(** [f"{article.get('title', '')} {article.get('description', '')}"] *)
Definition article_text (article : gmap string V) : string :=
  (get_printed article "title" ++ " " ++ get_printed article "description")%string.

(** [SentimentAnalyzer.analyze] *)
Definition analyze (text : string) : Q :=
  match text with
  | EmptyString => 0
  | _ => compound text
  end.

(** The score of one article, [analyze(f"...")], as [analyze_bulk],
    [aggregate_sentiment] and the plugin's [fetch] compute it. *)
Definition article_score (article : gmap string V) : Q :=
  analyze (article_text article).

(** [SentimentAnalyzer.analyze_bulk] *)
Definition analyze_bulk (articles : list (gmap string V)) : Q :=
  match articles with
  | [] => 0
  | _ =>
      let scores := map (fun article => analyze (article_text article)) articles in
      match scores with
      | [] => 0
      | _ => py_sum scores / inject_Z (len scores)
      end
  end.

(** [analyze_sentiment] *)
Definition analyze_sentiment (text : string) : Q := analyze text.

Definition interpret_sentiment (score : Q) : string :=
  if Qltb (2 # 10) score then "bullish"%string
  else if Qltb score (- (2 # 10)) then "bearish"%string
  else "neutral"%string.

Definition aggregate_sentiment (articles : list (gmap string V)) : summary :=
  let score := analyze_bulk articles in
  let positive_count :=
    py_count (fun a => Qltb (2 # 10) (analyze (article_text a))) articles in
  let negative_count :=
    py_count (fun a => Qltb (analyze (article_text a)) (- (2 # 10))) articles in
  let neutral_count := (len articles - positive_count - negative_count)%Z in
  {| sentiment_score := score;
     sentiment_label := interpret_sentiment score;
     article_count := len articles;
     positive_count := positive_count;
     negative_count := negative_count;
     neutral_count := neutral_count |}.

End Analyzer.

End Sentiment.

(** ** [connectors/news_api_connector.py]

    The HTTP request is external: [http_get page] is what
    [requests.get(...)] followed by [response.json()] produces for a page,
    [None] when a [RequestException] is raised. *)

Module NewsAPIConnector.

(** The decoded answer, as far as the connector looks at it: a dict, with
    the lists stored under the keys 'articles' and 'data' when they are
    present, or a bare list of articles. *)
Inductive news_data (A : Type) : Type :=
| NewsDict (articles : option (list A)) (data : option (list A))
| NewsList (items : list A).

Arguments NewsDict {A} articles data.
Arguments NewsList {A} items.

Section Connector.

Context {A : Type}.
Variable http_get : Z -> option (news_data A).

(** [get_news]: on a [RequestException] the dict
    [{"articles": [], "error": str(e)}] is returned. *)
Definition get_news (page : Z) : news_data A :=
  match http_get page with
  | Some data => data
  | None => NewsDict (Some []) None
  end.

(** What one pass of the loop of [get_multiple_pages] appends. *)
Definition page_articles (data : news_data A) : list A :=
  match data with
  | NewsDict (Some articles) _ => articles     (* "articles" in data *)
  | NewsDict None (Some items) => items        (* elif "data" in data *)
  | NewsDict None None => []                   (* else, and not a list *)
  | NewsList items => items                    (* else, isinstance(data, list) *)
  end.

Definition get_multiple_pages (num_pages : Z) : list A :=
  fold_left (fun all_articles page => all_articles ++ page_articles (get_news page))
    (py_range 1 (num_pages + 1)) [].

Definition get_latest_news (limit : Z) : list A :=
  let pages_needed := (limit / 10 + 1)%Z in
  let articles := get_multiple_pages pages_needed in
  py_slice_to articles limit.

End Connector.

End NewsAPIConnector.

(** ** [src/inputs/news_sentiment/plugin.py] *)

Module NewsSentimentInput.

(** The dict returned by [fetch]; [error] is the key present only when no
    article was fetched.  A headline is the raw ['title'] value, or the
    str 'No title'. *)
Record report (V : Type) : Type := mk_report {
  sentiment_score : Q;
  sentiment_label : string;
  news_count : Z;
  latest_headlines : list (V + string);
  positive_count : Z;
  negative_count : Z;
  neutral_count : Z;
  error : option string
}.

Arguments mk_report {V}.
Arguments sentiment_score {V}.
Arguments sentiment_label {V}.
Arguments news_count {V}.
Arguments latest_headlines {V}.
Arguments positive_count {V}.
Arguments negative_count {V}.
Arguments neutral_count {V}.
Arguments error {V}.

Section Plugin.

Context {V : Type}.
Variable format_value : V -> string.
Variable compound : string -> Q.
(** [self.sentiment_threshold], from the configuration (default 0.2). *)
Variable sentiment_threshold : Q.

Definition _interpret_sentiment (score : Q) : string :=
  if Qltb sentiment_threshold score then "bullish"%string
  else if Qltb score (- sentiment_threshold) then "bearish"%string
  else "neutral"%string.

(** The state of the loop of lines 77-89:
    [(sentiments, positive_count, negative_count, neutral_count)]. *)
Definition tally : Type := list Q * Z * Z * Z.

(** One pass of the loop. *)
Definition tally_step (st : tally) (article : gmap string V) : tally :=
  let '(sentiments, positive_count, negative_count, neutral_count) := st in
  let sentiment :=
    Sentiment.analyze compound (Sentiment.article_text format_value article) in
  let sentiments := sentiments ++ [sentiment] in
  if Qltb sentiment_threshold sentiment then
    (sentiments, (positive_count + 1)%Z, negative_count, neutral_count)
  else if Qltb sentiment (- sentiment_threshold) then
    (sentiments, positive_count, (negative_count + 1)%Z, neutral_count)
  else
    (sentiments, positive_count, negative_count, (neutral_count + 1)%Z).

(** [article.get('title', 'No title')] *)
Definition headline (article : gmap string V) : V + string :=
  match article !! "title"%string with
  | Some v => inl v
  | None => inr "No title"%string
  end.

(** Lines 59-114 of [fetch]: the report on the articles that the
    connector returned. *)
Definition fetch_articles (articles : list (gmap string V)) : report V :=
  match articles with
  | [] =>
      {| sentiment_score := 0;
         sentiment_label := "neutral";
         news_count := 0;
         latest_headlines := [];
         positive_count := 0;
         negative_count := 0;
         neutral_count := 0;
         error := Some "No news articles fetched"%string |}
  | _ =>
      let '(sentiments, positive_count, negative_count, neutral_count) :=
        fold_left tally_step articles ([], 0%Z, 0%Z, 0%Z) in
      let aggregate_sentiment :=
        match sentiments with
        | [] => 0
        | _ => py_sum sentiments / inject_Z (len sentiments)
        end in
      {| sentiment_score := aggregate_sentiment;
         sentiment_label := _interpret_sentiment aggregate_sentiment;
         news_count := len articles;
         latest_headlines := map headline (take 5 articles);
         positive_count := positive_count;
         negative_count := negative_count;
         neutral_count := neutral_count;
         error := None |}
  end.

(** [fetch]; [news_limit] is [self.news_limit], from the configuration
    (default 50). *)
Definition fetch (http_get : Z -> option (NewsAPIConnector.news_data (gmap string V)))
    (news_limit : Z) : report V :=
  fetch_articles (NewsAPIConnector.get_latest_news http_get news_limit).

End Plugin.

End NewsSentimentInput.

(** ** Python str

    A str whose characters matter is the list of its code points. *)

Definition pystr : Type := list N.

(** A str literal of the source; the literals used are ASCII. *)
Definition str (s : string) : pystr :=
  map Ascii.N_of_ascii (String.list_ascii_of_string s).

(** [c.isspace()]: the whitespace code points of CPython. *)
Definition py_isspace (c : N) : bool :=
  ((9 <=? c) && (c <=? 13) || (28 <=? c) && (c <=? 32)
   || (c =? 133) || (c =? 160) || (c =? 5760)
   || (8192 <=? c) && (c <=? 8202)
   || (c =? 8232) || (c =? 8233) || (c =? 8239) || (c =? 8287)
   || (c =? 12288))%N.

Fixpoint py_lstrip (s : pystr) : pystr :=
  match s with
  | [] => []
  | c :: t => if py_isspace c then py_lstrip t else s
  end.

Definition py_rstrip (s : pystr) : pystr := rev (py_lstrip (rev s)).

(** [s.strip()] *)
Definition py_strip (s : pystr) : pystr := py_rstrip (py_lstrip s).

(** [s.split(sep)] for a one-character separator: the empty str gives
    one empty piece. *)
Fixpoint py_split (sep : N) (s : pystr) : list pystr :=
  match s with
  | [] => [[]]
  | c :: t =>
      if (c =? sep)%N then [] :: py_split sep t
      else match py_split sep t with
           | piece :: pieces => (c :: piece) :: pieces
           | [] => [[c]]
           end
  end.

(** [s.split(sep, 1)]: split at the first separator only. *)
Fixpoint py_split_once (sep : N) (s : pystr) : list pystr :=
  match s with
  | [] => [[]]
  | c :: t =>
      if (c =? sep)%N then [[]; t]
      else match py_split_once sep t with
           | piece :: pieces => (c :: piece) :: pieces
           | [] => [[c]]
           end
  end.

Fixpoint py_startswith (s prefix : pystr) {struct prefix} : bool :=
  match prefix, s with
  | [], _ => true
  | _ :: _, [] => false
  | p :: prefix', c :: t => (c =? p)%N && py_startswith t prefix'
  end.

(** ** [connectors/llm_connector.py] *)

Module LLMConnector.

(** What the request to the chat API comes to, as far as [generate] looks
    at it: it raised (the call, or the conversion of the answer to a dict),
    or it answered with choices, given by their contents, [None] for a null
    content. *)
Inductive api_result : Type :=
| ApiRaised
| ApiChoices (contents : list (option pystr)).

(** [chat_completion]: the contents of the ['choices'] of the dict that
    it returns.  On an exception the dict has one choice, with the empty
    content. *)
Definition chat_completion (api : api_result) : list (option pystr) :=
  match api with
  | ApiRaised => [Some []]
  | ApiChoices contents => contents
  end.

(** [generate]: [response['choices'][0]['message']['content']] *)
Definition generate (api : api_result) : result (option pystr) :=
  py_index (chat_completion api) 0.

End LLMConnector.

(** ** [src/agent/runtime.py]: parsing the answer of the LLM

    [int] is the builtin: [py_int text] is its value, [None] when it
    raises. *)

Module BitcoinAdvisorAgent.

(** The dict [signal_data]. *)
Record signal_data : Type := mk_signal {
  signal : pystr;
  confidence : Z;
  reasoning : pystr
}.

Definition newline : N := 10%N.
Definition colon : N := 58%N.

(** [line.split(':', 1)[1].strip()] *)
Definition value_of (line : pystr) : result pystr :=
  part <- py_index (py_split_once colon line) 1 ;;
  Ok (py_strip part).

Section Parse.

Variable py_int : pystr -> option Z.

(** The body of the loop of [_parse_signal_response]. *)
Definition parse_line (signal_data : signal_data) (line : pystr)
  : result BitcoinAdvisorAgent.signal_data :=
  let line := py_strip line in
  if py_startswith line (str "SIGNAL:") then
    text <- value_of line ;;
    Ok {| signal := text;
          confidence := confidence signal_data;
          reasoning := reasoning signal_data |}
  else if py_startswith line (str "CONFIDENCE:") then
    (* try: ... int(...) except: 50 *)
    let parsed :=
      match value_of line with
      | Ok text => py_int text
      | Raise _ => None
      end in
    Ok {| signal := signal signal_data;
          confidence := match parsed with Some n => n | None => 50%Z end;
          reasoning := reasoning signal_data |}
  else if py_startswith line (str "REASONING:") then
    text <- value_of line ;;
    Ok {| signal := signal signal_data;
          confidence := confidence signal_data;
          reasoning := text |}
  else Ok signal_data.

Fixpoint parse_lines (signal_data : signal_data) (lines : list pystr)
  : result BitcoinAdvisorAgent.signal_data :=
  match lines with
  | [] => Ok signal_data
  | line :: rest =>
      signal_data <- parse_line signal_data line ;;
      parse_lines signal_data rest
  end.

Definition _parse_signal_response (response : pystr)
  : result BitcoinAdvisorAgent.signal_data :=
  let lines := py_split newline (py_strip response) in
  let signal_data :=
    {| signal := str "HOLD";
       confidence := 50;
       reasoning := str "Unable to parse LLM response" |} in
  parse_lines signal_data lines.

End Parse.

(** *** Inputs and signal *)

(** An entry of [input_data] as [_collect_inputs] leaves it, read with
    [input_data.get(name, {})]. *)
Inductive input_entry (D : Type) : Type :=
| Absent                      (* plugin not loaded: the default [{}] *)
| Failed (message : pystr)    (* [fetch] raised: [{'error': str(e)}] *)
| Fetched (data : D).         (* the dict returned by [fetch] *)

Arguments Absent {D}.
Arguments Failed {D} message.
Arguments Fetched {D} data.

(** ['error' in entry], given the same test on a fetched dict. *)
Definition has_error {D : Type} (data_has_error : D -> bool)
    (entry : input_entry D) : bool :=
  match entry with
  | Absent => false
  | Failed _ => true
  | Fetched data => data_has_error data
  end.

(** The signal returned on a failure. *)
Definition hold (confidence : Z) (reasoning : pystr) : signal_data :=
  {| signal := str "HOLD"; confidence := confidence; reasoning := reasoning |}.

Section GenerateSignal.

Variable py_int : pystr -> option Z.
(** [str(e)] for the exceptions of the model, and for the
    [AttributeError] of [None.strip()]. *)
Variable str_of_exception : exn -> pystr.
Variable none_has_no_strip : pystr.

(** One plugin in [_collect_inputs], from what its [fetch] does. *)
Definition collect {D : Type} (loaded : bool) (fetched : result D)
  : input_entry D :=
  if loaded then
    match fetched with
    | Ok data => Fetched data
    | Raise e => Failed (str_of_exception e)
    end
  else Absent.

(** [_generate_signal]; [llm] is [self.llm], [None] when the connector
    could not be initialised, and [prompt] the str that [_build_prompt]
    makes of the two entries. *)
Definition _generate_signal
    (llm : option (pystr -> LLMConnector.api_result))
    (btc_error sentiment_error : bool) (prompt : pystr) : signal_data :=
  match llm with
  | None => hold 0 (str "LLM not available")
  | Some request =>
      if btc_error || sentiment_error then hold 0 (str "Insufficient data")
      else
        match LLMConnector.generate (request prompt) with
        | Raise e => hold 0 (str "LLM error: " ++ str_of_exception e)
        | Ok None => hold 0 (str "LLM error: " ++ none_has_no_strip)
        | Ok (Some response) =>
            match _parse_signal_response py_int response with
            | Ok signal => signal
            | Raise e => hold 0 (str "LLM error: " ++ str_of_exception e)
            end
        end
  end.

(** The dict of [NewsSentimentInput.fetch] has the key 'error' when it
    reports no news; the dict of [BitcoinPriceInput.fetch] never has it. *)
Definition news_has_error {V : Type} (r : NewsSentimentInput.report V) : bool :=
  match NewsSentimentInput.error r with
  | Some _ => true
  | None => false
  end.

(** Steps 1 and 2 of [run_cycle] for the two inputs of the agent: the
    entries are collected and the signal generated.  [price] is the
    answer of the price connector, [None] when it raised. *)
Definition cycle_signal {P V : Type}
    (llm : option (pystr -> LLMConnector.api_result))
    (price_loaded : bool) (price : option P)
    (historical : list pyobj) (rsi_period : Z)
    (news_loaded : bool) (news : NewsSentimentInput.report V)
    (prompt : input_entry (P * npfloat * string) ->
              input_entry (NewsSentimentInput.report V) -> pystr)
  : signal_data :=
  let btc_data : input_entry (P * npfloat * string) :=
    if price_loaded then
      match price with
      | None => Failed (str "All Bitcoin price sources unavailable")
      | Some p =>
          match BitcoinPriceInput.fetch_rsi_signal historical rsi_period with
          | Ok (rsi, rsi_signal) => Fetched (p, rsi, rsi_signal)
          | Raise e => Failed (str_of_exception e)
          end
      end
    else Absent in
  let sentiment := collect news_loaded (Ok news) in
  _generate_signal llm
    (has_error (fun _ => false) btc_data)
    (has_error news_has_error sentiment)
    (prompt btc_data sentiment).

End GenerateSignal.

End BitcoinAdvisorAgent.

(** ** Runs of the model on concrete inputs *)

(** The scenario of the specification: 15 prices, period 14, no smoothing
    pass; gains sum to 2.75 and losses to 0.75, hence 100 - 100 / (1 + 11/3). *)
Example calculate_rsi_golden :
  exists v,
    calculate_rsi
      (floats [44; 4425 # 100; 445 # 10; 4375 # 100; 445 # 10; 4475 # 100; 45;
               451 # 10; 452 # 10; 455 # 10; 456 # 10; 457 # 10; 458 # 10;
               459 # 10; 46]) 14 = Ok (Fin v) /\
    v == 550 # 7.
Proof. eexists. split; [vm_compute; reflexivity|reflexivity]. Qed.

(** Three smoothing passes after the seed. *)
Example calculate_rsi_smoothed :
  exists v,
    calculate_rsi (floats [1; 2; 4; 3; 5; 7]) 2 = Ok (Fin v) /\ v == 2700 # 29.
Proof. eexists. split; [vm_compute; reflexivity|reflexivity]. Qed.

Example calculate_rsi_single_element :
  calculate_rsi (floats [7]) 14 = Ok (Fin 50).
Proof. reflexivity. Qed.

(** A dict after a leading number stops [np.array]; a number after a
    leading dict stops the comprehension; a candle without ['close'] is a
    [KeyError]. *)
Example calculate_rsi_mixed_float_first :
  calculate_rsi [PyFloat 1; PyDict {[ "close"%string := 2 ]}] 1 = Raise TypeError.
Proof. reflexivity. Qed.

Example calculate_rsi_mixed_dict_first :
  calculate_rsi [PyDict {[ "close"%string := 2 ]}; PyFloat 1] 1 = Raise TypeError.
Proof. reflexivity. Qed.

Example calculate_rsi_missing_close :
  calculate_rsi [PyDict {[ "close"%string := 2 ]}; PyDict {[ "open"%string := 1 ]}] 1
  = Raise KeyError.
Proof. reflexivity. Qed.

(** The plugin guards the call by the length of the history, and answers
    its neutral default on an empty one. *)
Example fetch_rsi_empty_history :
  BitcoinPriceInput.fetch_rsi [] 14 = Ok (Fin 50).
Proof. reflexivity. Qed.

(** ** Basic facts about the building blocks *)

Lemma Qltb_lt (x y : Q) : Qltb x y = true <-> x < y.
Proof.
  unfold Qltb. rewrite Qlt_alt. destruct (x ?= y); split; congruence.
Qed.

Lemma Qltb_ge (x y : Q) : Qltb x y = false <-> y <= x.
Proof.
  rewrite <- not_true_iff_false, Qltb_lt. split.
  - apply Qnot_lt_le.
  - intros H1 H2. exact (Qle_not_lt _ _ H1 H2).
Qed.

Lemma Qeq_bool_false (x y : Q) : ~ x == y -> Qeq_bool x y = false.
Proof.
  intros H. destruct (Qeq_bool x y) eqn:E; [|reflexivity].
  apply Qeq_bool_eq in E. contradiction.
Qed.

Lemma inject_Z_pos (z : Z) : (1 <= z)%Z -> 0 < inject_Z z.
Proof. intros H. change 0 with (inject_Z 0). rewrite <- Zlt_Qlt. lia. Qed.

Lemma inject_Z_nonzero (z : Z) : z <> 0%Z -> Qeq_bool (inject_Z z) 0 = false.
Proof.
  intros H. apply Qeq_bool_false. change 0 with (inject_Z 0).
  rewrite inject_Z_injective. exact H.
Qed.

Lemma len_floats (ps : list Q) : len (floats ps) = len ps.
Proof. unfold len, floats. now rewrite length_map. Qed.

Lemma len_nonneg {A : Type} (l : list A) : (0 <= len l)%Z.
Proof. unfold len. lia. Qed.

Lemma len_nonempty {A : Type} (l : list A) : l <> [] -> (1 <= len l)%Z.
Proof. destruct l; [congruence|]. unfold len. simpl. lia. Qed.

Lemma comprehension_to_float (ps : list Q) :
  comprehension to_float (floats ps) = Ok ps.
Proof.
  induction ps as [|x ps IH]; [reflexivity|].
  simpl. rewrite IH. reflexivity.
Qed.

Lemma py_index_head {A : Type} (x : A) (l : list A) : py_index (x :: l) 0 = Ok x.
Proof.
  unfold py_index. simpl.
  destruct (len (x :: l) <=? 0)%Z eqn:E; [|reflexivity].
  apply Z.leb_le in E. unfold len in E. simpl in E. lia.
Qed.

(** On a non-empty list of numbers the dict branch is skipped and the
    conversion to an array succeeds: what remains is the length guard and
    the arithmetic. *)
Lemma calculate_rsi_floats (ps : list Q) (period : Z) :
  ps <> [] ->
  calculate_rsi (floats ps) period =
    if (len ps <? period + 1)%Z then Ok (Fin 50)
    else avg <- smoothed_averages ps period ;; Ok (rsi_of_averages avg).
Proof.
  intros Hne. destruct ps as [|x ps]; [congruence|].
  unfold calculate_rsi.
  change (floats (x :: ps)) with (PyFloat x :: floats ps).
  rewrite py_index_head. cbn [rbind is_dict].
  change (PyFloat x :: floats ps) with (floats (x :: ps)).
  rewrite len_floats, comprehension_to_float. reflexivity.
Qed.

Lemma calculate_rsi_insufficient (ps : list Q) (period : Z) :
  ps <> [] -> (len ps < period + 1)%Z ->
  calculate_rsi (floats ps) period = Ok (Fin 50).
Proof.
  intros Hne Hlen. rewrite calculate_rsi_floats by exact Hne.
  apply Z.ltb_lt in Hlen. now rewrite Hlen.
Qed.

(** ** Indexing and ranges *)

Lemma py_index_nat {A : Type} (l : list A) (n : nat) (x : A) :
  l !! n = Some x -> py_index l (Z.of_nat n) = Ok x.
Proof.
  intros Hx. unfold py_index.
  assert (Hlt : (n < length l)%nat) by (eapply lookup_lt_Some; eauto).
  destruct (Z.of_nat n <? 0)%Z eqn:E1; [apply Z.ltb_lt in E1; lia|].
  rewrite E1. cbn [orb].
  destruct (len l <=? Z.of_nat n)%Z eqn:E2;
    [apply Z.leb_le in E2; unfold len in E2; lia|].
  now rewrite Nat2Z.id, Hx.
Qed.

Lemma py_index_wrap {A : Type} (l : list A) (i : Z) (x : A) :
  (i < 0)%Z -> (0 <= i + len l)%Z ->
  l !! Z.to_nat (i + len l) = Some x -> py_index l i = Ok x.
Proof.
  intros Hneg Hlo Hx. unfold py_index.
  apply Z.ltb_lt in Hneg as E. rewrite E.
  destruct (i + len l <? 0)%Z eqn:E1; [apply Z.ltb_lt in E1; lia|].
  cbn [orb].
  destruct (len l <=? i + len l)%Z eqn:E2; [apply Z.leb_le in E2; lia|].
  now rewrite Hx.
Qed.


(** Every index of [-len l .. len l - 1] is served. *)
Lemma py_index_in_range {A : Type} (l : list A) (i : Z) :
  (- len l <= i < len l)%Z -> exists x, py_index l i = Ok x.
Proof.
  intros [Hlo Hhi]. destruct (Z.lt_ge_cases i 0) as [Hneg|Hpos].
  - destruct (lookup_lt_is_Some_2 l (Z.to_nat (i + len l))) as [x Hx];
      [unfold len in *; lia|].
    exists x. apply py_index_wrap; auto; lia.
  - destruct (lookup_lt_is_Some_2 l (Z.to_nat i)) as [x Hx];
      [unfold len in *; lia|].
    exists x. rewrite <- (Z2Nat.id i) by exact Hpos. now apply py_index_nat.
Qed.

Lemma py_range_nil (a b : Z) : (b <= a)%Z -> py_range a b = [].
Proof.
  intros H. unfold py_range.
  replace (Z.to_nat (b - a)) with 0%nat by lia. reflexivity.
Qed.

Lemma py_range_cons (a b : Z) :
  (a < b)%Z -> py_range a b = a :: py_range (a + 1) b.
Proof.
  intros H. unfold py_range.
  replace (Z.to_nat (b - a)) with (S (Z.to_nat (b - (a + 1)))) by lia.
  cbn [seq map]. f_equal; [f_equal; lia|].
  rewrite <- seq_shift, map_map. apply map_ext. intros k. lia.
Qed.

Lemma py_range_bounds (a b i : Z) : In i (py_range a b) -> (a <= i < b)%Z.
Proof.
  unfold py_range. rewrite in_map_iff. intros (k & <- & Hk).
  apply in_seq in Hk. lia.
Qed.

Lemma py_slice_to_take {A : Type} (l : list A) (k : Z) :
  (0 <= k <= len l)%Z -> py_slice_to l k = take (Z.to_nat k) l.
Proof.
  intros [H0 H1]. unfold py_slice_to.
  destruct (k <? 0)%Z eqn:E; [apply Z.ltb_lt in E; lia|].
  now rewrite Z.min_l.
Qed.


(** ** The arrays of [calculate_rsi] *)

Lemma length_np_diff (a : list Q) : length (np_diff a) = (length a - 1)%nat.
Proof.
  induction a as [|x [|y t] IH]; [reflexivity..|].
  change (np_diff (x :: y :: t)) with ((y - x) :: np_diff (y :: t)).
  cbn [length] in *. lia.
Qed.

Lemma len_np_diff (a : list Q) : a <> [] -> len (np_diff a) = (len a - 1)%Z.
Proof.
  intros H. unfold len. rewrite length_np_diff.
  destruct a; [congruence|]. cbn [length]. lia.
Qed.

Lemma len_gains (ds : list Q) : len (np_where_gains ds) = len ds.
Proof. unfold len, np_where_gains. now rewrite length_map. Qed.

Lemma len_losses (ds : list Q) : len (np_where_losses ds) = len ds.
Proof. unfold len, np_where_losses. now rewrite length_map. Qed.

Lemma gains_nonneg (ds : list Q) : Forall (Qle 0) (np_where_gains ds).
Proof.
  unfold np_where_gains. apply Forall_map, Forall_forall. intros d _. simpl.
  destruct (Qltb 0 d) eqn:E; [apply Qltb_lt in E; now apply Qlt_le_weak|].
  apply Qle_refl.
Qed.

Lemma losses_nonneg (ds : list Q) : Forall (Qle 0) (np_where_losses ds).
Proof.
  unfold np_where_losses. apply Forall_map, Forall_forall. intros d _. simpl.
  destruct (Qltb d 0) eqn:E; [apply Qltb_lt in E; lra|apply Qle_refl].
Qed.

(** ** The smoothing loop on finite averages *)

Lemma smooth_update_fin (period : Z) (a x : Q) :
  period <> 0%Z ->
  fdiv (fadd (fmul (Fin a) (of_int (period - 1))) (Fin x)) (of_int period)
  = Fin (smoothQ period a x).
Proof.
  intros Hp. unfold of_int. cbn [fmul fadd fdiv].
  now rewrite inject_Z_nonzero.
Qed.

Lemma smooth_step_fin (period : Z) (gains losses : list Q) (k : nat) (g l x y : Q) :
  period <> 0%Z -> gains !! k = Some x -> losses !! k = Some y ->
  smooth_step period gains losses (Z.of_nat k) (Fin g, Fin l)
  = Ok (Fin (smoothQ period g x), Fin (smoothQ period l y)).
Proof.
  intros Hp Hx Hy. unfold smooth_step.
  rewrite (py_index_nat _ _ _ Hx), (py_index_nat _ _ _ Hy). cbn [rbind].
  now rewrite !smooth_update_fin.
Qed.

Lemma smooth_loop_fin (period : Z) (gains losses : list Q) :
  period <> 0%Z -> length gains = length losses ->
  forall (k : nat) (g l : Q),
    smooth_loop period gains losses (py_range (Z.of_nat k) (len gains)) (Fin g, Fin l)
    = Ok (Fin (fold_left (smoothQ period) (drop k gains) g),
          Fin (fold_left (smoothQ period) (drop k losses) l)).
Proof.
  intros Hp Hlen k.
  remember (length gains - k)%nat as d eqn:Hd.
  revert k Hd. induction d as [|d IH]; intros k Hd g l.
  - rewrite py_range_nil by (unfold len; lia).
    rewrite !drop_ge by lia. reflexivity.
  - rewrite py_range_cons by (unfold len; lia).
    destruct (lookup_lt_is_Some_2 gains k) as [x Hx]; [lia|].
    destruct (lookup_lt_is_Some_2 losses k) as [y Hy]; [lia|].
    cbn [smooth_loop].
    rewrite (smooth_step_fin _ _ _ _ _ _ _ _ Hp Hx Hy). cbn [rbind].
    replace (Z.of_nat k + 1)%Z with (Z.of_nat (S k)) by lia.
    rewrite IH by lia.
    rewrite (drop_S _ _ _ Hx), (drop_S _ _ _ Hy). reflexivity.
Qed.

Lemma np_mean_take (period : Z) (xs : list Q) :
  (1 <= period <= len xs)%Z ->
  np_mean (py_slice_to xs period)
  = Fin (np_sum (take (Z.to_nat period) xs) / inject_Z period).
Proof.
  intros [H1 H2]. rewrite py_slice_to_take by lia.
  assert (Hl : length (take (Z.to_nat period) xs) = Z.to_nat period)
    by (rewrite length_take; unfold len in H2; lia).
  unfold np_mean. destruct (take (Z.to_nat period) xs) as [|x t] eqn:E.
  - cbn [length] in Hl. lia.
  - unfold len. rewrite Hl, Z2Nat.id by lia. reflexivity.
Qed.

(** With [period >= 1] and at least [period + 1] prices the two averages
    are finite and are the seed-then-smooth values. *)
Lemma smoothed_averages_fin (ps : list Q) (period : Z) :
  (1 <= period)%Z -> (period + 1 <= len ps)%Z ->
  smoothed_averages ps period
  = Ok (Fin (averageQ period (np_where_gains (np_diff ps))),
        Fin (averageQ period (np_where_losses (np_diff ps)))).
Proof.
  intros Hp Hlen.
  assert (Hne : ps <> []) by (intros ->; unfold len in Hlen; simpl in Hlen; lia).
  pose proof (len_np_diff ps Hne) as Hd.
  unfold smoothed_averages.
  rewrite !np_mean_take by (rewrite ?len_gains, ?len_losses; lia).
  rewrite <- (len_gains (np_diff ps)).
  assert (Hsame : length (np_where_gains (np_diff ps))
                  = length (np_where_losses (np_diff ps)))
    by (unfold np_where_gains, np_where_losses; now rewrite !length_map).
  pose proof (smooth_loop_fin period _ _ ltac:(lia) Hsame (Z.to_nat period)) as L.
  rewrite Z2Nat.id in L by lia. rewrite L. reflexivity.
Qed.

(** *** Non-negativity of the averages *)

Lemma np_sum_nonneg_from (xs : list Q) (a : Q) :
  0 <= a -> Forall (Qle 0) xs -> 0 <= fold_left Qplus xs a.
Proof.
  intros Ha H. revert a Ha. induction H as [|x xs Hx _ IH]; intros a Ha.
  - exact Ha.
  - cbn [fold_left]. apply IH. lra.
Qed.

Lemma smoothQ_nonneg (period : Z) (a x : Q) :
  (1 <= period)%Z -> 0 <= a -> 0 <= x -> 0 <= smoothQ period a x.
Proof.
  intros Hp Ha Hx. unfold smoothQ.
  apply Qle_shift_div_l; [now apply inject_Z_pos|].
  assert (0 <= inject_Z (period - 1))
    by (change 0 with (inject_Z 0); rewrite <- Zle_Qle; lia).
  assert (0 <= a * inject_Z (period - 1)) by now apply Qmult_le_0_compat.
  lra.
Qed.

Lemma fold_smoothQ_nonneg (period : Z) (xs : list Q) (a : Q) :
  (1 <= period)%Z -> 0 <= a -> Forall (Qle 0) xs ->
  0 <= fold_left (smoothQ period) xs a.
Proof.
  intros Hp Ha H. revert a Ha. induction H as [|x xs Hx _ IH]; intros a Ha.
  - exact Ha.
  - cbn [fold_left]. apply IH. now apply smoothQ_nonneg.
Qed.

Lemma averageQ_nonneg (period : Z) (xs : list Q) :
  (1 <= period)%Z -> Forall (Qle 0) xs -> 0 <= averageQ period xs.
Proof.
  intros Hp H. unfold averageQ. apply fold_smoothQ_nonneg; [exact Hp| |].
  - apply Qle_shift_div_l; [now apply inject_Z_pos|].
    rewrite Qmult_0_l. apply np_sum_nonneg_from; [apply Qle_refl|].
    now apply Forall_take.
  - now apply Forall_drop.
Qed.

(** ** From the averages to the index *)

Lemma ratio_nonneg (g l : Q) : 0 <= g -> 0 < l -> 0 <= g / l.
Proof.
  intros Hg Hl. apply Qle_shift_div_l; [exact Hl|]. now rewrite Qmult_0_l.
Qed.


Lemma rsi_of_averages_pos (g l : Q) :
  0 <= g -> 0 < l -> rsi_of_averages (Fin g, Fin l) = Fin (rsiQ g l).
Proof.
  intros Hg Hl. pose proof (ratio_nonneg g l Hg Hl) as Hr.
  assert (El : Qeq_bool l 0 = false) by (apply Qeq_bool_false; lra).
  unfold rsi_of_averages, feq0. rewrite El.
  cbn [fdiv]. rewrite El. cbn [fadd fdiv].
  assert (Ex : Qeq_bool (1 + g / l) 0 = false).
  { apply Qeq_bool_false. intros E. rewrite <- E in Hr at 1.
    set (r := g / l) in *. lra. }
  rewrite Ex. reflexivity.
Qed.


(** [rsiQ] is non-decreasing in the ratio [avg_gain / avg_loss]. *)
Lemma rsiQ_mono (g1 l1 g2 l2 : Q) :
  0 <= g1 -> 0 < l1 -> 0 <= g2 -> 0 < l2 ->
  g1 / l1 <= g2 / l2 -> rsiQ g1 l1 <= rsiQ g2 l2.
Proof.
  intros Hg1 Hl1 Hg2 Hl2 Hle.
  pose proof (ratio_nonneg g1 l1 Hg1 Hl1) as Hr1.
  unfold rsiQ. set (r1 := g1 / l1) in *. set (r2 := g2 / l2) in *.
  assert (Hx1 : 0 < 1 + r1) by lra.
  assert (Hx2 : 0 < 1 + r2) by lra.
  assert (Hy : 0 < 100 / (1 + r1)).
  { apply Qlt_shift_div_l; [exact Hx1|]. rewrite Qmult_0_l. reflexivity. }
  assert (H : 100 / (1 + r2) <= 100 / (1 + r1)).
  { apply Qle_shift_div_r; [exact Hx2|].
    assert (E : 100 / (1 + r1) * (1 + r1) == 100).
    { rewrite Qmult_comm. apply Qmult_div_r. lra. }
    rewrite <- E at 1. apply Qmult_le_l; [exact Hy|]. lra. }
  set (y1 := 100 / (1 + r1)) in *. set (y2 := 100 / (1 + r2)) in *. lra.
Qed.

(** The value returned on sufficient data. *)
Lemma calculate_rsi_sufficient (ps : list Q) (period : Z) :
  (1 <= period)%Z -> (period + 1 <= len ps)%Z ->
  calculate_rsi (floats ps) period
  = Ok (rsi_of_averages
          (Fin (averageQ period (np_where_gains (np_diff ps))),
           Fin (averageQ period (np_where_losses (np_diff ps))))).
Proof.
  intros Hp Hlen.
  assert (Hne : ps <> []) by (intros ->; unfold len in Hlen; simpl in Hlen; lia).
  rewrite calculate_rsi_floats by exact Hne.
  destruct (len ps <? period + 1)%Z eqn:E; [apply Z.ltb_lt in E; lia|].
  now rewrite smoothed_averages_fin.
Qed.

Lemma averages_nonneg (ps : list Q) (period : Z) :
  (1 <= period)%Z ->
  0 <= averageQ period (np_where_gains (np_diff ps)) /\
  0 <= averageQ period (np_where_losses (np_diff ps)).
Proof.
  intros Hp. split; apply averageQ_nonneg; auto using gains_nonneg, losses_nonneg.
Qed.


(** ** Candle dicts *)

Lemma comprehension_get_close (cs : list (gmap string Q)) (closes : list Q) :
  closes_of cs closes ->
  comprehension get_close (candles cs) = Ok (floats closes).
Proof.
  induction 1 as [|c x cs closes Hc _ IH]; [reflexivity|].
  change (candles (c :: cs)) with (PyDict c :: candles cs).
  cbn [comprehension get_close]. rewrite Hc. cbn [rbind].
  rewrite IH. reflexivity.
Qed.

(** C8. For every non-empty list of candle dicts that all carry a numeric
    ['close'] field, and for every period (in particular every period
    >= 1), the comprehension [[candle['close'] for candle in cs]] of the
    plugin yields the list of their ['close'] values, and [calculate_rsi]
    on the dicts is [calculate_rsi] on that list: same value, or same
    exception. *)
Theorem calculate_rsi_candles_project
    (cs : list (gmap string Q)) (closes : list Q) (period : Z) :
  cs <> [] -> closes_of cs closes ->
  comprehension get_close (candles cs) = Ok (floats closes) /\
  calculate_rsi (candles cs) period = calculate_rsi (floats closes) period.
Proof.
  intros Hne Hcl.
  pose proof (comprehension_get_close cs closes Hcl) as Hproj.
  split; [exact Hproj|].
  destruct Hcl as [|c x cs closes Hc Hrest]; [congruence|].
  rewrite calculate_rsi_floats by discriminate.
  unfold calculate_rsi.
  change (candles (c :: cs)) with (PyDict c :: candles cs) in *.
  rewrite py_index_head. cbn [rbind is_dict].
  rewrite Hproj. cbn [rbind].
  now rewrite len_floats, comprehension_to_float.
Qed.

Lemma calculate_rsi_candles_project_witness :
  comprehension get_close
    (candles [ {[ "close"%string := 3; "open"%string := 1 ]};
               {[ "close"%string := 5 ]}; {[ "close"%string := 4 ]} ])
  = Ok (floats [3; 5; 4]) /\
  calculate_rsi
    (candles [ {[ "close"%string := 3; "open"%string := 1 ]};
               {[ "close"%string := 5 ]}; {[ "close"%string := 4 ]} ]) 2
  = calculate_rsi (floats [3; 5; 4]) 2.
Proof.
  apply (calculate_rsi_candles_project
           [ {[ "close"%string := 3; "open"%string := 1 ]};
             {[ "close"%string := 5 ]}; {[ "close"%string := 4 ]} ]
           [3; 5; 4] 2).
  - discriminate.
  - repeat constructor.
Defined.

(** ** Insufficient data *)

(** C2. On the empty sequence [calculate_rsi] raises [IndexError], for
    every period: [prices[0]] (line 23) is evaluated before the length
    guard of line 26, so the neutral default 50.0 is not reached.  On
    every non-empty sequence of numbers with fewer than [period + 1]
    elements the guard is reached and exactly 50.0 is returned. *)
Theorem calculate_rsi_empty_raises (period : Z) :
  calculate_rsi [] period = Raise IndexError /\
  calculate_rsi [] 14 = Raise IndexError /\
  calculate_rsi (floats [7]) 14 = Ok (Fin 50) /\
  (forall ps : list Q, ps <> [] -> (len ps < period + 1)%Z ->
     calculate_rsi (floats ps) period = Ok (Fin 50)).
Proof.
  split; [reflexivity|]. split; [reflexivity|]. split; [reflexivity|].
  intros ps Hne Hlen. now apply calculate_rsi_insufficient.
Qed.

(** ** Signal interpretation *)

Lemma interpret_rsi_oversold (rsi : Q) :
  rsi < 30 -> interpret_rsi (Fin rsi) = "oversold"%string.
Proof.
  intros H. unfold interpret_rsi, flt.
  apply Qltb_lt in H. now rewrite H.
Qed.

Lemma interpret_rsi_overbought (rsi : Q) :
  70 < rsi -> interpret_rsi (Fin rsi) = "overbought"%string.
Proof.
  intros H. unfold interpret_rsi, fgt, flt.
  assert (E : Qltb rsi 30 = false) by (apply Qltb_ge; lra).
  apply Qltb_lt in H. now rewrite E, H.
Qed.

Lemma interpret_rsi_neutral (rsi : Q) :
  30 <= rsi <= 70 -> interpret_rsi (Fin rsi) = "neutral"%string.
Proof.
  intros [H1 H2]. unfold interpret_rsi, fgt, flt.
  apply Qltb_ge in H1, H2. now rewrite H1, H2.
Qed.

(** C5. [interpret_rsi] answers 'oversold' below 30, 'overbought' above
    70 and 'neutral' on [30, 70], both bounds included; 29.999 is
    oversold and 70.001 overbought.  The three conditions are exclusive and
    cover every real, so [0, 100] falls into exactly three zones. *)
Theorem interpret_rsi_zones (rsi : Q) :
  (rsi < 30 -> interpret_rsi (Fin rsi) = "oversold"%string) /\
  (70 < rsi -> interpret_rsi (Fin rsi) = "overbought"%string) /\
  (30 <= rsi <= 70 -> interpret_rsi (Fin rsi) = "neutral"%string) /\
  (rsi < 30 \/ 30 <= rsi <= 70 \/ 70 < rsi) /\
  interpret_rsi (Fin 30) = "neutral"%string /\
  interpret_rsi (Fin 70) = "neutral"%string /\
  interpret_rsi (Fin (29999 # 1000)) = "oversold"%string /\
  interpret_rsi (Fin (70001 # 1000)) = "overbought"%string.
Proof.
  split; [apply interpret_rsi_oversold|].
  split; [apply interpret_rsi_overbought|].
  split; [apply interpret_rsi_neutral|].
  split; [|repeat split; reflexivity].
  destruct (Qlt_le_dec rsi 30) as [H|H]; [now left|].
  destruct (Qlt_le_dec 70 rsi) as [H'|H']; [now right; right|].
  right; left. now split.
Qed.

(** C9. The interpreter duplicated in the Bitcoin price plugin returns
    the label of the utility interpreter on every float, hence on every
    real. *)
Theorem plugin_interpret_rsi_agrees (rsi : npfloat) :
  BitcoinPriceInput._interpret_rsi rsi = interpret_rsi rsi.
Proof.
  unfold BitcoinPriceInput._interpret_rsi, interpret_rsi.
  destruct (flt rsi (Fin 30)); [reflexivity|].
  destruct (fgt rsi (Fin 70)); reflexivity.
Qed.

(** C10. [interpret_rsi] is defined on every real, inside [0, 100] or
    not: the answer is one of the three labels, it is 'oversold' for every
    value below 30, negative ones included, and 'overbought' for every
    value above 70, those above 100 included. *)
Theorem interpret_rsi_total (rsi : Q) :
  In (interpret_rsi (Fin rsi))
     ["oversold"%string; "neutral"%string; "overbought"%string] /\
  (rsi < 30 -> interpret_rsi (Fin rsi) = "oversold"%string) /\
  (70 < rsi -> interpret_rsi (Fin rsi) = "overbought"%string) /\
  interpret_rsi (Fin (-5)) = "oversold"%string /\
  interpret_rsi (Fin 250) = "overbought"%string.
Proof.
  split.
  - unfold interpret_rsi.
    destruct (flt (Fin rsi) (Fin 30)); [now left|].
    destruct (fgt (Fin rsi) (Fin 70)); [now right; right; left|].
    now right; left.
  - split; [apply interpret_rsi_oversold|].
    split; [apply interpret_rsi_overbought|].
    split; reflexivity.
Qed.

(** ** Range of the returned value *)



(** ** The value 100 *)







(** ** Monotonicity in the ratio RS *)

(** C7. Take two inputs with period >= 1 and at least [period + 1]
    numbers each, whose final average losses [l1], [l2] are positive.  If
    the ratios RS of final average gain to final average loss satisfy
    [g1 / l1 <= g2 / l2], the value returned for the first input is at
    most the value returned for the second. *)
Theorem calculate_rsi_monotone_in_rs
    (ps1 ps2 : list Q) (period1 period2 : Z) (g1 l1 g2 l2 : Q) :
  (1 <= period1)%Z -> (period1 + 1 <= len ps1)%Z ->
  (1 <= period2)%Z -> (period2 + 1 <= len ps2)%Z ->
  smoothed_averages ps1 period1 = Ok (Fin g1, Fin l1) ->
  smoothed_averages ps2 period2 = Ok (Fin g2, Fin l2) ->
  0 < l1 -> 0 < l2 ->
  g1 / l1 <= g2 / l2 ->
  exists v1 v2,
    calculate_rsi (floats ps1) period1 = Ok (Fin v1) /\
    calculate_rsi (floats ps2) period2 = Ok (Fin v2) /\
    v1 <= v2.
Proof.
  intros Hp1 Hlen1 Hp2 Hlen2 Ha1 Ha2 Hl1 Hl2 Hrs.
  destruct (averages_nonneg ps1 period1 Hp1) as [Hg1 _].
  destruct (averages_nonneg ps2 period2 Hp2) as [Hg2 _].
  rewrite smoothed_averages_fin in Ha1, Ha2 by assumption.
  injection Ha1 as Eg1 El1. injection Ha2 as Eg2 El2.
  rewrite !calculate_rsi_sufficient by assumption.
  rewrite Eg1, El1, Eg2, El2 in *.
  rewrite !rsi_of_averages_pos by assumption.
  exists (rsiQ g1 l1), (rsiQ g2 l2).
  split; [reflexivity|]. split; [reflexivity|].
  now apply rsiQ_mono.
Qed.

Lemma calculate_rsi_monotone_in_rs_witness :
  exists v1 v2,
    calculate_rsi (floats [3; 2; 4]) 2 = Ok (Fin v1) /\
    calculate_rsi (floats [3; 2; 6; 7]) 2 = Ok (Fin v2) /\
    v1 <= v2.
Proof.
  eapply (calculate_rsi_monotone_in_rs [3; 2; 4] [3; 2; 6; 7] 2 2).
  - lia.
  - unfold len. simpl. lia.
  - lia.
  - unfold len. simpl. lia.
  - reflexivity.
  - reflexivity.
  - vm_compute. reflexivity.
  - vm_compute. reflexivity.
  - vm_compute. discriminate.
Defined.

(** ** Agreement with the algorithm of the specification *)









(** ** Periods below 1 *)

Lemma smooth_step_nan (period : Z) (gains losses : list Q) (i : Z) :
  length gains = length losses -> (- len gains <= i < len gains)%Z ->
  smooth_step period gains losses i (NaN, NaN) = Ok (NaN, NaN).
Proof.
  intros Hsame Hi. unfold smooth_step.
  destruct (py_index_in_range gains i Hi) as [x ->].
  destruct (py_index_in_range losses i) as [y ->];
    [unfold len in *; lia|].
  reflexivity.
Qed.


Lemma smooth_loop_nan (period : Z) (gains losses : list Q) (idx : list Z) :
  length gains = length losses ->
  (forall i, In i idx -> (- len gains <= i < len gains)%Z) ->
  smooth_loop period gains losses idx (NaN, NaN) = Ok (NaN, NaN).
Proof.
  intros Hsame. induction idx as [|i idx IH]; intros Hidx; [reflexivity|].
  cbn [smooth_loop]. rewrite smooth_step_nan; [|exact Hsame|apply Hidx; now left].
  cbn [rbind]. apply IH. intros j Hj. apply Hidx. now right.
Qed.






(** With period 0 the value returned is NaN. *)
Example calculate_rsi_zero_period :
  calculate_rsi (floats [1; 2; 4]) 0 = Ok NaN.
Proof. reflexivity. Qed.

(** ** Further facts on sufficient data *)




(** *** Equal arrays give equal averages *)








(** *** Transformed price lists *)












(** *** When an average is zero *)








(** *** Deltas and monotone prices *)












(** *** One more price *)

Lemma np_diff_snoc (front : list Q) (y x : Q) :
  np_diff (front ++ [y; x]) = np_diff (front ++ [y]) ++ [x - y].
Proof.
  induction front as [|a [|b t] IH]; [reflexivity..|].
  change (np_diff ((a :: b :: t) ++ [y; x]))
    with ((b - a) :: np_diff ((b :: t) ++ [y; x])).
  change (np_diff ((a :: b :: t) ++ [y]))
    with ((b - a) :: np_diff ((b :: t) ++ [y])).
  now rewrite IH.
Qed.

Lemma last_snoc_inv {A : Type} (l : list A) (y : A) :
  last l = Some y -> exists front, l = front ++ [y].
Proof.
  intros H. destruct l as [|a l] using rev_ind; [discriminate|].
  rewrite last_snoc in H. injection H as ->. now exists l.
Qed.

Lemma averageQ_snoc (period : Z) (xs : list Q) (d : Q) :
  (0 <= period <= len xs)%Z ->
  averageQ period (xs ++ [d]) = smoothQ period (averageQ period xs) d.
Proof.
  intros [H0 H1]. unfold averageQ, len in *.
  rewrite take_app_le, drop_app_le by lia.
  now rewrite fold_left_app.
Qed.

Lemma py_index_singleton {A : Type} (x : A) : py_index [x] 0 = Ok x.
Proof. reflexivity. Qed.

(** X7. One more price is one more pass of the loop.  On sufficient data
    whose last price is [y], the final averages for the prices followed by
    a new price [x] are the final averages for the prices, updated by the
    loop body (lines 45-46) on the gain and loss of the delta [x - y];
    nothing of the older prices is needed. *)
Theorem smoothed_averages_append
    (ps : list Q) (y x : Q) (period : Z) (avg : npfloat * npfloat) :
  (1 <= period)%Z -> (period + 1 <= len ps)%Z ->
  last ps = Some y ->
  smoothed_averages ps period = Ok avg ->
  smoothed_averages (ps ++ [x]) period
  = smooth_step period (np_where_gains [x - y]) (np_where_losses [x - y]) 0 avg
  /\ calculate_rsi (floats (ps ++ [x])) period
     = (avg' <- smooth_step period (np_where_gains [x - y])
                  (np_where_losses [x - y]) 0 avg ;;
        Ok (rsi_of_averages avg')).
Proof.
  intros Hp Hlen Hlast Ha.
  assert (Hlen' : (period + 1 <= len (ps ++ [x]))%Z)
    by (unfold len in *; rewrite length_app; cbn [length]; lia).
  assert (E : smoothed_averages (ps ++ [x]) period
              = smooth_step period (np_where_gains [x - y])
                  (np_where_losses [x - y]) 0 avg).
  { rewrite smoothed_averages_fin in Ha by assumption. injection Ha as <-.
    rewrite smoothed_averages_fin by assumption.
    destruct (last_snoc_inv ps y Hlast) as [front ->].
    assert (Hne : front ++ [y] <> []) by (destruct front; discriminate).
    pose proof (len_np_diff _ Hne) as Hd.
    rewrite <- app_assoc. cbn [app]. rewrite np_diff_snoc.
    unfold np_where_gains, np_where_losses. rewrite !map_app. cbn [map].
    fold (np_where_gains (np_diff (front ++ [y]))).
    fold (np_where_losses (np_diff (front ++ [y]))).
    rewrite !averageQ_snoc by (rewrite ?len_gains, ?len_losses; lia).
    unfold smooth_step. rewrite !py_index_singleton. cbn [rbind].
    now rewrite !smooth_update_fin by lia. }
  split; [exact E|].
  rewrite calculate_rsi_floats by (destruct ps; discriminate).
  destruct (len (ps ++ [x]) <? period + 1)%Z eqn:El;
    [apply Z.ltb_lt in El; lia|].
  now rewrite E.
Qed.

Lemma smoothed_averages_append_witness :
  smoothed_averages ([3; 2; 6] ++ [7]) 2
  = smooth_step 2 (np_where_gains [7 - 6]) (np_where_losses [7 - 6]) 0
      (Fin (4 # 2), Fin (1 # 2))
  /\ calculate_rsi (floats ([3; 2; 6] ++ [7])) 2
     = (avg' <- smooth_step 2 (np_where_gains [7 - 6])
                  (np_where_losses [7 - 6]) 0 (Fin (4 # 2), Fin (1 # 2)) ;;
        Ok (rsi_of_averages avg')).
Proof.
  apply (smoothed_averages_append [3; 2; 6] 6 7 2 (Fin (4 # 2), Fin (1 # 2))).
  - lia.
  - unfold len. simpl. lia.
  - reflexivity.
  - reflexivity.
Defined.

(** *** Exactly [period + 1] prices *)




(** *** Period 1 *)




(** ** Ill-formed price lists *)

Lemma comprehension_get_close_missing (cs : list (gmap string Q)) :
  Exists (fun c : gmap string Q => c !! "close"%string = None) cs ->
  comprehension get_close (candles cs) = Raise KeyError.
Proof.
  induction cs as [|c cs IH]; intros H; [inversion H|].
  change (candles (c :: cs)) with (PyDict c :: candles cs).
  cbn [comprehension get_close].
  destruct (c !! "close"%string) as [x|] eqn:E; [|reflexivity].
  cbn [rbind]. apply Exists_cons in H as [H|H]; [congruence|].
  now rewrite IH.
Qed.






Lemma comprehension_to_float_dict (l : list pyobj) :
  Exists (fun o => is_dict o = true) l ->
  comprehension to_float l = Raise TypeError.
Proof.
  induction l as [|o l IH]; intros H; [inversion H|].
  cbn [comprehension]. destruct o as [x|d]; [|reflexivity].
  cbn [to_float rbind]. apply Exists_cons in H as [H|H]; [discriminate H|].
  now rewrite IH.
Qed.

(** X11. A list that starts with a number and holds a dict further on:
    with fewer than [period + 1] elements the neutral 50.0 is returned and
    the dict goes unnoticed; otherwise the conversion to an array raises
    [TypeError]. *)
Theorem calculate_rsi_number_then_dict
    (x : Q) (rest : list pyobj) (period : Z) :
  Exists (fun o => is_dict o = true) rest ->
  calculate_rsi (PyFloat x :: rest) period
  = if (len (PyFloat x :: rest) <? period + 1)%Z then Ok (Fin 50)
    else Raise TypeError.
Proof.
  intros H. unfold calculate_rsi. rewrite py_index_head. cbn [rbind is_dict].
  destruct (len (PyFloat x :: rest) <? period + 1)%Z; [reflexivity|].
  rewrite comprehension_to_float_dict; [reflexivity|].
  now apply Exists_cons_tl.
Qed.

Lemma calculate_rsi_number_then_dict_witness :
  calculate_rsi (PyFloat 1 :: [PyFloat 2; PyDict {[ "close"%string := 3 ]}]) 14
  = if (len (PyFloat 1 :: [PyFloat 2; PyDict {[ "close"%string := 3%Q ]}])
        <? 14 + 1)%Z
    then Ok (Fin 50) else Raise TypeError.
Proof.
  apply (calculate_rsi_number_then_dict 1
           [PyFloat 2; PyDict {[ "close"%string := 3%Q ]}] 14).
  apply Exists_cons_tl, Exists_cons_hd. reflexivity.
Defined.

(** ** The plugin's RSI *)

Lemma len_candles (cs : list (gmap string Q)) : len (candles cs) = len cs.
Proof. unfold len, candles. now rewrite length_map. Qed.

Lemma fetch_rsi_candles (cs : list (gmap string Q)) (closes : list Q)
    (period : Z) :
  closes_of cs closes ->
  BitcoinPriceInput.fetch_rsi (candles cs) period
  = if (period <=? len cs)%Z then calculate_rsi (floats closes) period
    else Ok (Fin 50).
Proof.
  intros Hcl. unfold BitcoinPriceInput.fetch_rsi. rewrite len_candles.
  destruct (period <=? len cs)%Z; [|reflexivity].
  now rewrite (comprehension_get_close cs closes Hcl).
Qed.



Lemma calculate_rsi_zero_period_nan (ps : list Q) :
  ps <> [] -> calculate_rsi (floats ps) 0 = Ok NaN.
Proof.
  intros Hne.
  pose proof (len_nonempty ps Hne) as Hlen.
  pose proof (len_np_diff ps Hne) as Hd.
  rewrite calculate_rsi_floats by exact Hne.
  destruct (len ps <? 0 + 1)%Z eqn:E; [apply Z.ltb_lt in E; lia|].
  unfold smoothed_averages.
  rewrite !py_slice_to_take by (rewrite ?len_gains, ?len_losses; lia).
  change (Z.to_nat 0) with 0%nat. cbn [take np_mean].
  rewrite smooth_loop_nan; [reflexivity| |].
  - unfold np_where_gains, np_where_losses. now rewrite !length_map.
  - intros i Hi. apply py_range_bounds in Hi. rewrite len_gains. lia.
Qed.

(** X13. With [rsi_period = 0] the plugin's guard [len(historical) >=
    rsi_period] always passes.  On an empty history [fetch] then raises
    [IndexError], and so it does for every negative period; on a non-empty
    history of candles with ['close'] the RSI is NaN and, every comparison
    with NaN being false, the signal is 'neutral'. *)
Theorem fetch_rsi_zero_period
    (cs : list (gmap string Q)) (closes : list Q) (rsi_period : Z) :
  ((rsi_period <= 0)%Z ->
   BitcoinPriceInput.fetch_rsi_signal [] rsi_period = Raise IndexError) /\
  (cs <> [] -> closes_of cs closes ->
   BitcoinPriceInput.fetch_rsi_signal (candles cs) 0 = Ok (NaN, "neutral"%string)).
Proof.
  split.
  - intros Hp. unfold BitcoinPriceInput.fetch_rsi_signal, BitcoinPriceInput.fetch_rsi.
    change (len (@nil pyobj)) with 0%Z.
    apply Z.leb_le in Hp. now rewrite Hp.
  - intros Hne Hcl. unfold BitcoinPriceInput.fetch_rsi_signal.
    rewrite (fetch_rsi_candles cs closes 0 Hcl).
    pose proof (len_nonneg cs) as H0. apply Z.leb_le in H0. rewrite H0.
    rewrite calculate_rsi_zero_period_nan; [reflexivity|].
    destruct Hcl; [congruence|discriminate].
Qed.



(** *** A higher last price *)







(** ** News sentiment *)

Lemma py_count_from {A : Type} (cond : A -> bool) (l : list A) (n : Z) :
  fold_left (fun n a => if cond a then (n + 1)%Z else n) l n
  = (n + Z.of_nat (length (filter (fun a => cond a = true) l)))%Z.
Proof.
  revert n. induction l as [|a l IH]; intros n.
  { cbn [fold_left]. rewrite filter_nil. cbn [length]. lia. }
  cbn [fold_left]. rewrite IH. rewrite filter_cons.
  destruct (cond a) eqn:E; case_decide; try discriminate; try congruence;
    cbn [length]; lia.
Qed.

Lemma py_count_filter {A : Type} (cond : A -> bool) (l : list A) :
  py_count cond l = Z.of_nat (length (filter (fun a => cond a = true) l)).
Proof. unfold py_count. rewrite py_count_from. lia. Qed.

Lemma py_count_bounds {A : Type} (cond : A -> bool) (l : list A) :
  (0 <= py_count cond l <= len l)%Z.
Proof.
  rewrite py_count_filter. unfold len.
  pose proof (length_filter (fun a => cond a = true) l). lia.
Qed.

Lemma py_count_ext {A : Type} (f g : A -> bool) (l : list A) :
  (forall a, f a = g a) -> py_count f l = py_count g l.
Proof.
  intros H. unfold py_count. generalize 0%Z.
  induction l as [|a l IH]; intros n; [reflexivity|].
  cbn [fold_left]. now rewrite H, IH.
Qed.

(** Two conditions that exclude each other and the rest. *)
Lemma py_count_three {A : Type} (f g : A -> bool) (l : list A) :
  (forall a, f a = true -> g a = false) ->
  (py_count f l + py_count g l
   + py_count (fun a => negb (f a) && negb (g a)) l = len l)%Z.
Proof.
  intros H. unfold py_count, len. rewrite !py_count_from.
  induction l as [|a l IH]; [reflexivity|].
  rewrite !filter_cons. specialize (H a).
  destruct (f a) eqn:Ef; destruct (g a) eqn:Eg; cbn [negb andb];
    try (specialize (H eq_refl); discriminate H);
    repeat case_decide; try discriminate; try congruence;
    cbn [length]; lia.
Qed.

(** *** The mean of a non-empty list lies between its bounds *)

Lemma py_sum_le_from (l : list Q) (a b : Q) :
  Forall (fun s => s <= b) l ->
  fold_left Qplus l a <= a + b * inject_Z (len l).
Proof.
  intros H. revert a. induction H as [|s l Hs _ IH]; intros a.
  - unfold len. cbn [length fold_left]. change (inject_Z (Z.of_nat 0)) with 0. lra.
  - cbn [fold_left]. eapply Qle_trans; [apply IH|].
    unfold len. cbn [length]. rewrite Nat2Z.inj_succ, <- Z.add_1_r.
    rewrite inject_Z_plus. change (inject_Z 1) with 1. lra.
Qed.

Lemma py_sum_ge_from (l : list Q) (a b : Q) :
  Forall (fun s => b <= s) l ->
  a + b * inject_Z (len l) <= fold_left Qplus l a.
Proof.
  intros H. revert a. induction H as [|s l Hs _ IH]; intros a.
  - unfold len. cbn [length fold_left]. change (inject_Z (Z.of_nat 0)) with 0. lra.
  - cbn [fold_left]. eapply Qle_trans; [|apply IH].
    unfold len. cbn [length]. rewrite Nat2Z.inj_succ, <- Z.add_1_r.
    rewrite inject_Z_plus. change (inject_Z 1) with 1. lra.
Qed.

Lemma len_pos_inject {A : Type} (l : list A) : l <> [] -> 0 < inject_Z (len l).
Proof. intros H. apply inject_Z_pos. now apply len_nonempty. Qed.

Lemma mean_le (l : list Q) (b : Q) :
  l <> [] -> Forall (fun s => s <= b) l -> py_sum l / inject_Z (len l) <= b.
Proof.
  intros Hne H. apply Qle_shift_div_r; [now apply len_pos_inject|].
  unfold py_sum. pose proof (py_sum_le_from l 0 b H). lra.
Qed.

Lemma mean_ge (l : list Q) (b : Q) :
  l <> [] -> Forall (fun s => b <= s) l -> b <= py_sum l / inject_Z (len l).
Proof.
  intros Hne H. apply Qle_shift_div_l; [now apply len_pos_inject|].
  unfold py_sum. pose proof (py_sum_ge_from l 0 b H). lra.
Qed.

Section NewsSentiment.

Context {V : Type}.
Variable format_value : V -> string.
Variable compound : string -> Q.

Abbreviation score := (Sentiment.article_score format_value compound).

Lemma py_count_cons {A : Type} (cond : A -> bool) (a : A) (l : list A) :
  py_count cond (a :: l)
  = ((if cond a then 1 else 0) + py_count cond l)%Z.
Proof.
  unfold py_count. cbn [fold_left]. rewrite !py_count_from.
  destruct (cond a); lia.
Qed.

(** What the loop of [fetch] has in hand after the articles. *)
Lemma tally_fold (t : Q) (articles : list (gmap string V))
    (sentiments : list Q) (p n u : Z) :
  fold_left (NewsSentimentInput.tally_step format_value compound t) articles
    (sentiments, p, n, u)
  = (sentiments ++ map score articles,
     (p + py_count (fun a => Qltb t (score a)) articles)%Z,
     (n + py_count (fun a => negb (Qltb t (score a)) && Qltb (score a) (- t))
            articles)%Z,
     (u + py_count (fun a => negb (Qltb t (score a))
                             && negb (Qltb (score a) (- t))) articles)%Z).
Proof.
  revert sentiments p n u.
  induction articles as [|a l IH]; intros sentiments p n u.
  - cbn [fold_left map]. unfold py_count. cbn [fold_left].
    rewrite app_nil_r, !Z.add_0_r. reflexivity.
  - cbn [fold_left map]. rewrite !py_count_cons.
    unfold NewsSentimentInput.tally_step at 2.
    change (Sentiment.analyze compound (Sentiment.article_text format_value a))
      with (score a).
    destruct (Qltb t (score a)) eqn:E1; [|destruct (Qltb (score a) (- t)) eqn:E2];
      rewrite IH, <- app_assoc; cbn [negb andb app];
      repeat (apply (f_equal2 pair)); try reflexivity; lia.
Qed.

Lemma fetch_nonempty (t : Q) (articles : list (gmap string V)) :
  articles <> [] ->
  NewsSentimentInput.fetch_articles format_value compound t articles
  = {| NewsSentimentInput.sentiment_score :=
         py_sum (map score articles) / inject_Z (len articles);
       NewsSentimentInput.sentiment_label :=
         NewsSentimentInput._interpret_sentiment t
           (py_sum (map score articles) / inject_Z (len articles));
       NewsSentimentInput.news_count := len articles;
       NewsSentimentInput.latest_headlines :=
         map NewsSentimentInput.headline (take 5 articles);
       NewsSentimentInput.positive_count :=
         py_count (fun a => Qltb t (score a)) articles;
       NewsSentimentInput.negative_count :=
         py_count (fun a => negb (Qltb t (score a)) && Qltb (score a) (- t))
           articles;
       NewsSentimentInput.neutral_count :=
         py_count (fun a => negb (Qltb t (score a))
                            && negb (Qltb (score a) (- t))) articles;
       NewsSentimentInput.error := None |}.
Proof.
  intros Hne. destruct articles as [|a l]; [congruence|].
  unfold NewsSentimentInput.fetch_articles. rewrite tally_fold.
  rewrite app_nil_l, !Z.add_0_l.
  assert (El : len (map score (a :: l)) = len (a :: l))
    by (unfold len; now rewrite length_map).
  rewrite <- El. reflexivity.
Qed.

Lemma analyze_bulk_nonempty (articles : list (gmap string V)) :
  articles <> [] ->
  Sentiment.analyze_bulk format_value compound articles
  = py_sum (map score articles) / inject_Z (len articles).
Proof.
  intros Hne. destruct articles as [|a l]; [congruence|].
  unfold Sentiment.analyze_bulk.
  assert (El : len (map score (a :: l)) = len (a :: l))
    by (unfold len; now rewrite length_map).
  rewrite <- El. reflexivity.
Qed.

(** X16. The three counters of the news plugin share out the articles:
    for every threshold, positive, negative and neutral counts are
    non-negative and add up to [news_count], the number of articles. *)
Theorem news_fetch_counts_partition (t : Q) (articles : list (gmap string V)) :
  let r := NewsSentimentInput.fetch_articles format_value compound t articles in
  (NewsSentimentInput.positive_count r + NewsSentimentInput.negative_count r
   + NewsSentimentInput.neutral_count r = NewsSentimentInput.news_count r)%Z /\
  NewsSentimentInput.news_count r = len articles /\
  (0 <= NewsSentimentInput.positive_count r)%Z /\
  (0 <= NewsSentimentInput.negative_count r)%Z /\
  (0 <= NewsSentimentInput.neutral_count r)%Z.
Proof.
  destruct articles as [|a l]; [cbn; repeat split; lia|].
  cbv zeta. rewrite fetch_nonempty by discriminate.
  cbn [NewsSentimentInput.positive_count NewsSentimentInput.negative_count
       NewsSentimentInput.neutral_count NewsSentimentInput.news_count].
  split; [|split; [reflexivity|repeat split; apply py_count_bounds]].
  pose proof (py_count_three (fun a => Qltb t (score a))
                (fun a => negb (Qltb t (score a)) && Qltb (score a) (- t))
                (a :: l)) as H3.
  rewrite <- H3.
  - f_equal. apply py_count_ext. intros b. destruct (Qltb t (score b)); reflexivity.
  - intros b ->. reflexivity.
Qed.

(** X17. With the default threshold 0.2 the news plugin and
    [aggregate_sentiment] of the utilities agree on every list of
    articles: same score, same label, same number of articles, same
    positive, negative and neutral counts. *)
Theorem news_fetch_agrees_with_aggregate (articles : list (gmap string V)) :
  let r := NewsSentimentInput.fetch_articles format_value compound (2 # 10) articles in
  let s := Sentiment.aggregate_sentiment format_value compound articles in
  NewsSentimentInput.sentiment_score r = Sentiment.sentiment_score s /\
  NewsSentimentInput.sentiment_label r = Sentiment.sentiment_label s /\
  NewsSentimentInput.news_count r = Sentiment.article_count s /\
  NewsSentimentInput.positive_count r = Sentiment.positive_count s /\
  NewsSentimentInput.negative_count r = Sentiment.negative_count s /\
  NewsSentimentInput.neutral_count r = Sentiment.neutral_count s.
Proof.
  destruct articles as [|a l]; [cbn; repeat split; reflexivity|].
  cbv zeta. rewrite fetch_nonempty by discriminate.
  unfold Sentiment.aggregate_sentiment.
  rewrite analyze_bulk_nonempty by discriminate.
  cbn [NewsSentimentInput.sentiment_score NewsSentimentInput.sentiment_label
       NewsSentimentInput.positive_count NewsSentimentInput.negative_count
       NewsSentimentInput.neutral_count NewsSentimentInput.news_count
       Sentiment.sentiment_score Sentiment.sentiment_label
       Sentiment.article_count Sentiment.positive_count
       Sentiment.negative_count Sentiment.neutral_count].
  assert (Hneg : py_count (fun a => negb (Qltb (2 # 10) (score a))
                                    && Qltb (score a) (- (2 # 10))) (a :: l)
                 = py_count (fun a => Qltb (score a) (- (2 # 10))) (a :: l)).
  { apply py_count_ext. intros b.
    destruct (Qltb (2 # 10) (score b)) eqn:E1; [|reflexivity].
    destruct (Qltb (score b) (- (2 # 10))) eqn:E2; [|reflexivity].
    apply Qltb_lt in E1, E2. lra. }
  repeat split; try reflexivity; try exact Hneg.
  pose proof (py_count_three (fun a => Qltb (2 # 10) (score a))
                (fun a => Qltb (score a) (- (2 # 10))) (a :: l)) as H3.
  change (fun a0 : gmap string V =>
            Qltb (Sentiment.analyze compound
                    (Sentiment.article_text format_value a0)) (- (2 # 10)))
    with (fun a0 => Qltb (score a0) (- (2 # 10))).
  change (fun a0 : gmap string V =>
            Qltb (2 # 10) (Sentiment.analyze compound
                             (Sentiment.article_text format_value a0)))
    with (fun a0 => Qltb (2 # 10) (score a0)).
  rewrite <- H3.
  - lia.
  - intros b E1. destruct (Qltb (score b) (- (2 # 10))) eqn:E2; [|reflexivity].
    apply Qltb_lt in E1, E2. lra.
Qed.

Lemma score_bounded (lo hi : Q) (a : gmap string V) :
  lo <= 0 -> 0 <= hi -> (forall text, lo <= compound text /\ compound text <= hi) ->
  lo <= score a /\ score a <= hi.
Proof.
  intros Hlo Hhi Hc. unfold Sentiment.article_score, Sentiment.analyze.
  destruct (Sentiment.article_text format_value a); [split; assumption|apply Hc].
Qed.

(** X18. The aggregate score stays within the analyzer's range.  If every
    compound score lies in [-1, 1], so do the aggregate of [analyze_bulk]
    and the aggregate of the news plugin, on every list of articles, the
    empty one included. *)
Theorem sentiment_score_bounded (t : Q) (articles : list (gmap string V)) :
  (forall text, -1 <= compound text /\ compound text <= 1) ->
  (-1 <= Sentiment.analyze_bulk format_value compound articles /\
   Sentiment.analyze_bulk format_value compound articles <= 1) /\
  (-1 <= NewsSentimentInput.sentiment_score
           (NewsSentimentInput.fetch_articles format_value compound t articles) /\
   NewsSentimentInput.sentiment_score
     (NewsSentimentInput.fetch_articles format_value compound t articles) <= 1).
Proof.
  intros Hc. destruct articles as [|a l]; [cbn; repeat split; discriminate|].
  rewrite fetch_nonempty, analyze_bulk_nonempty by discriminate.
  cbn [NewsSentimentInput.sentiment_score].
  assert (El : len (a :: l) = len (map score (a :: l)))
    by (unfold len; now rewrite length_map).
  rewrite El.
  assert (Hne : map score (a :: l) <> []) by discriminate.
  assert (Hb : -1 <= py_sum (map score (a :: l)) / inject_Z (len (map score (a :: l)))
               /\ py_sum (map score (a :: l)) / inject_Z (len (map score (a :: l))) <= 1).
  { split; [apply mean_ge|apply mean_le]; try exact Hne;
      apply Forall_map, Forall_forall; intros b _;
      apply (score_bounded (-1) 1 b); try exact Hc; discriminate. }
  split; exact Hb.
Qed.

Lemma py_count_none {A : Type} (l : list A) :
  py_count (fun _ : A => false) l = 0%Z.
Proof.
  unfold py_count. induction l as [|a l IH]; [reflexivity|].
  cbn [fold_left]. exact IH.
Qed.

(** X19. A negative threshold leaves no room for 'neutral'.  With
    [sentiment_threshold < 0] every score is above the threshold or below
    its opposite: no article is counted neutral, and the label of a
    non-empty list of articles is 'bullish' or 'bearish', never
    'neutral'. *)
Theorem news_fetch_negative_threshold (t : Q) (articles : list (gmap string V)) :
  t < 0 -> articles <> [] ->
  let r := NewsSentimentInput.fetch_articles format_value compound t articles in
  NewsSentimentInput.neutral_count r = 0%Z /\
  (NewsSentimentInput.sentiment_label r = "bullish"%string \/
   NewsSentimentInput.sentiment_label r = "bearish"%string).
Proof.
  intros Ht Hne. cbv zeta. rewrite fetch_nonempty by exact Hne.
  cbn [NewsSentimentInput.neutral_count NewsSentimentInput.sentiment_label].
  split.
  - rewrite (py_count_ext _ (fun _ => false)); [apply py_count_none|].
    intros a. destruct (Qltb t (score a)) eqn:E1; [reflexivity|].
    destruct (Qltb (score a) (- t)) eqn:E2; [reflexivity|].
    apply Qltb_ge in E1, E2. lra.
  - unfold NewsSentimentInput._interpret_sentiment.
    set (m := py_sum (map score articles) / inject_Z (len articles)).
    destruct (Qltb t m) eqn:E1; [now left|].
    destruct (Qltb m (- t)) eqn:E2; [now right|].
    apply Qltb_ge in E1, E2. lra.
Qed.

(** X20. In [aggregate_sentiment] the neutral count, obtained by
    subtraction, is never negative: it is the number of articles whose
    score lies in [-0.2, 0.2], and the three counts add up to
    [article_count]. *)
Theorem aggregate_sentiment_counts (articles : list (gmap string V)) :
  let s := Sentiment.aggregate_sentiment format_value compound articles in
  Sentiment.neutral_count s
  = py_count (fun a => negb (Qltb (2 # 10) (score a))
                       && negb (Qltb (score a) (- (2 # 10)))) articles /\
  (0 <= Sentiment.neutral_count s)%Z /\
  (Sentiment.positive_count s + Sentiment.negative_count s
   + Sentiment.neutral_count s = Sentiment.article_count s)%Z /\
  Sentiment.article_count s = len articles.
Proof.
  cbv zeta. unfold Sentiment.aggregate_sentiment.
  cbn [Sentiment.article_count Sentiment.positive_count
       Sentiment.negative_count Sentiment.neutral_count].
  change (fun a0 : gmap string V =>
            Qltb (Sentiment.analyze compound
                    (Sentiment.article_text format_value a0)) (- (2 # 10)))
    with (fun a0 => Qltb (score a0) (- (2 # 10))).
  change (fun a0 : gmap string V =>
            Qltb (2 # 10) (Sentiment.analyze compound
                             (Sentiment.article_text format_value a0)))
    with (fun a0 => Qltb (2 # 10) (score a0)).
  pose proof (py_count_three (fun a => Qltb (2 # 10) (score a))
                (fun a => Qltb (score a) (- (2 # 10))) articles) as H3.
  assert (Hex : forall b, Qltb (2 # 10) (score b) = true ->
                          Qltb (score b) (- (2 # 10)) = false).
  { intros b E1. destruct (Qltb (score b) (- (2 # 10))) eqn:E2; [|reflexivity].
    apply Qltb_lt in E1, E2. lra. }
  specialize (H3 Hex).
  pose proof (py_count_bounds (fun a => negb (Qltb (2 # 10) (score a))
                && negb (Qltb (score a) (- (2 # 10)))) articles).
  unfold Sentiment.article_score in *.
  repeat split; lia.
Qed.

End NewsSentiment.

Lemma sentiment_score_bounded_witness :
  (-1 <= Sentiment.analyze_bulk (fun v : string => v)
           (fun text => if String.eqb text "up down" then 1 # 2 else - (1 # 4))
           [ {[ "title"%string := "up"%string; "description"%string := "down"%string ]};
             {[ "title"%string := "flat"%string ]} ] /\
   Sentiment.analyze_bulk (fun v : string => v)
     (fun text => if String.eqb text "up down" then 1 # 2 else - (1 # 4))
     [ {[ "title"%string := "up"%string; "description"%string := "down"%string ]};
       {[ "title"%string := "flat"%string ]} ] <= 1) /\
  (-1 <= NewsSentimentInput.sentiment_score
           (NewsSentimentInput.fetch_articles (fun v : string => v)
              (fun text => if String.eqb text "up down" then 1 # 2 else - (1 # 4))
              (2 # 10)
              [ {[ "title"%string := "up"%string; "description"%string := "down"%string ]};
                {[ "title"%string := "flat"%string ]} ]) /\
   NewsSentimentInput.sentiment_score
     (NewsSentimentInput.fetch_articles (fun v : string => v)
        (fun text => if String.eqb text "up down" then 1 # 2 else - (1 # 4))
        (2 # 10)
        [ {[ "title"%string := "up"%string; "description"%string := "down"%string ]};
          {[ "title"%string := "flat"%string ]} ]) <= 1).
Proof.
  apply (sentiment_score_bounded (fun v : string => v)
           (fun text => if String.eqb text "up down" then 1 # 2 else - (1 # 4))
           (2 # 10)
           [ {[ "title"%string := "up"%string; "description"%string := "down"%string ]};
             {[ "title"%string := "flat"%string ]} ]).
  intros text. destruct (String.eqb text "up down"); split; discriminate.
Defined.

Lemma news_fetch_negative_threshold_witness :
  let r := NewsSentimentInput.fetch_articles (fun v : string => v)
             (fun text => if String.eqb text "up down" then 1 # 2 else - (1 # 4))
             (- (1 # 10))
             [ {[ "title"%string := "up"%string; "description"%string := "down"%string ]};
               {[ "title"%string := "flat"%string ]} ] in
  NewsSentimentInput.neutral_count r = 0%Z /\
  (NewsSentimentInput.sentiment_label r = "bullish"%string \/
   NewsSentimentInput.sentiment_label r = "bearish"%string).
Proof.
  apply (news_fetch_negative_threshold (fun v : string => v)
           (fun text => if String.eqb text "up down" then 1 # 2 else - (1 # 4))
           (- (1 # 10))
           [ {[ "title"%string := "up"%string; "description"%string := "down"%string ]};
             {[ "title"%string := "flat"%string ]} ]).
  - reflexivity.
  - discriminate.
Defined.

(** ** The news connector *)

Section NewsConnector.

Context {A : Type}.
Variable http_get : Z -> option (NewsAPIConnector.news_data A).

Lemma py_slice_to_nil {B : Type} (k : Z) : py_slice_to (@nil B) k = [].
Proof. unfold py_slice_to. now rewrite take_nil. Qed.

Lemma py_slice_to_length {B : Type} (l : list B) (k : Z) :
  (0 <= k)%Z -> (len (py_slice_to l k) <= k)%Z.
Proof.
  intros Hk. unfold py_slice_to, len.
  destruct (k <? 0)%Z eqn:E; [apply Z.ltb_lt in E; lia|].
  rewrite length_take. lia.
Qed.

Lemma py_slice_to_prefix {B : Type} (l : list B) (k : Z) :
  py_slice_to l k `prefix_of` l.
Proof. unfold py_slice_to. apply prefix_take. Qed.

Lemma get_multiple_pages_concat (num_pages : Z) :
  NewsAPIConnector.get_multiple_pages http_get num_pages
  = concat (map (fun page => match http_get page with
                             | Some data => NewsAPIConnector.page_articles data
                             | None => []
                             end) (py_range 1 (num_pages + 1))).
Proof.
  unfold NewsAPIConnector.get_multiple_pages.
  set (f := fun page => match http_get page with
                        | Some data => NewsAPIConnector.page_articles data
                        | None => []
                        end).
  assert (H : forall pages acc,
             fold_left (fun all_articles page =>
                          all_articles
                          ++ NewsAPIConnector.page_articles
                               (NewsAPIConnector.get_news http_get page))
               pages acc
             = acc ++ concat (map f pages)).
  { induction pages as [|page pages IH]; intros acc.
    - cbn. now rewrite app_nil_r.
    - cbn [fold_left map concat]. rewrite IH, <- app_assoc. do 2 f_equal.
      unfold f, NewsAPIConnector.get_news. destruct (http_get page); reflexivity. }
  now rewrite H.
Qed.

Lemma get_latest_news_nonpositive (limit : Z) :
  (limit <= 0)%Z -> NewsAPIConnector.get_latest_news http_get limit = [].
Proof.
  intros H. unfold NewsAPIConnector.get_latest_news. cbv zeta.
  destruct (Z.eq_dec limit 0%Z) as [->|Hne].
  - rewrite py_slice_to_take by (split; [lia|apply len_nonneg]). reflexivity.
  - unfold NewsAPIConnector.get_multiple_pages. rewrite py_range_nil.
    + apply py_slice_to_nil.
    + assert (limit / 10 < 0)%Z by (apply Z.div_lt_upper_bound; lia). lia.
Qed.

(** X21. [get_latest_news] never returns more than [limit] articles.
    For a limit below 1 it returns none (and for a negative one it does not
    even request a page); otherwise the articles are the first ones, at
    most [limit], of the pages 1 to [limit // 10 + 1] taken in order, where
    a page whose request failed counts for no article and does not stop
    the pages after it. *)
Theorem get_latest_news_at_most_limit (limit : Z) :
  ((limit <= 0)%Z -> NewsAPIConnector.get_latest_news http_get limit = []) /\
  ((limit < 0)%Z -> py_range 1 (limit / 10 + 1 + 1) = []) /\
  ((0 <= limit)%Z ->
   (len (NewsAPIConnector.get_latest_news http_get limit) <= limit)%Z) /\
  NewsAPIConnector.get_latest_news http_get limit
    `prefix_of`
    concat (map (fun page => match http_get page with
                             | Some data => NewsAPIConnector.page_articles data
                             | None => []
                             end) (py_range 1 (limit / 10 + 1 + 1))).
Proof.
  assert (Hneg : (limit < 0)%Z -> py_range 1 (limit / 10 + 1 + 1) = []).
  { intros H. apply py_range_nil.
    assert (limit / 10 < 0)%Z by (apply Z.div_lt_upper_bound; lia). lia. }
  unfold NewsAPIConnector.get_latest_news. cbv zeta.
  rewrite get_multiple_pages_concat.
  split; [|split; [exact Hneg|split]].
  - intros H. rewrite <- get_multiple_pages_concat.
    now apply get_latest_news_nonpositive.
  - apply py_slice_to_length.
  - apply py_slice_to_prefix.
Qed.

End NewsConnector.

Section NewsFetch.

Context {V : Type}.
Variable format_value : V -> string.
Variable compound : string -> Q.
Variable sentiment_threshold : Q.
Variable http_get : Z -> option (NewsAPIConnector.news_data (gmap string V)).

Lemma fetch_articles_news_count (articles : list (gmap string V)) :
  NewsSentimentInput.news_count
    (NewsSentimentInput.fetch_articles format_value compound
       sentiment_threshold articles) = len articles.
Proof.
  destruct articles as [|a l]; [reflexivity|].
  now rewrite fetch_nonempty by discriminate.
Qed.

(** X22. The news plugin never analyses more than [news_limit] articles,
    and reports the absence of news in three situations: a [news_limit]
    below 1, every request failing, and pages without articles.  The report
    is then the neutral one (score 0.0, label 'neutral', all counts 0) with
    the 'error' key, which makes the agent hold. *)
Theorem news_fetch_limit (news_limit : Z) :
  let r := NewsSentimentInput.fetch format_value compound sentiment_threshold
             http_get news_limit in
  ((0 <= news_limit)%Z -> (NewsSentimentInput.news_count r <= news_limit)%Z) /\
  ((news_limit <= 0)%Z \/ (forall page, http_get page = None) ->
   r = NewsSentimentInput.fetch_articles format_value compound
         sentiment_threshold []) /\
  (NewsSentimentInput.error r <> None <-> NewsSentimentInput.news_count r = 0%Z).
Proof.
  cbv zeta. unfold NewsSentimentInput.fetch.
  split; [|split].
  - intros H. rewrite fetch_articles_news_count.
    unfold NewsAPIConnector.get_latest_news. cbv zeta.
    now apply py_slice_to_length.
  - intros [H|H]; [now rewrite get_latest_news_nonpositive|].
    unfold NewsAPIConnector.get_latest_news. cbv zeta.
    rewrite get_multiple_pages_concat.
    assert (E : concat (map (fun page => match http_get page with
                       | Some data => NewsAPIConnector.page_articles data
                       | None => []
                       end) (py_range 1 (news_limit / 10 + 1 + 1))) = []).
    { induction (py_range 1 (news_limit / 10 + 1 + 1)) as [|p ps IH];
        [reflexivity|]. cbn [map concat]. now rewrite H, IH. }
    rewrite E. now rewrite py_slice_to_nil.
  - set (articles := NewsAPIConnector.get_latest_news http_get news_limit).
    destruct articles as [|a l] eqn:E.
    + cbn. split; [reflexivity|congruence].
    + rewrite fetch_nonempty by discriminate.
      cbn [NewsSentimentInput.error NewsSentimentInput.news_count].
      split; [congruence|]. unfold len. cbn [length]. lia.
Qed.

End NewsFetch.

(** ** Parsing the answer of the LLM *)

Import BitcoinAdvisorAgent.

Lemma py_lstrip_length (s : pystr) : (length (py_lstrip s) <= length s)%nat.
Proof.
  induction s as [|c t IH]; [reflexivity|]. cbn [py_lstrip].
  destruct (py_isspace c); cbn [length]; lia.
Qed.

Lemma py_lstrip_fixed_app (s y : pystr) :
  s <> [] -> py_lstrip s = s -> py_lstrip (s ++ y) = s ++ y.
Proof.
  destruct s as [|c t]; [congruence|]. intros _ H. cbn [py_lstrip app] in *.
  destruct (py_isspace c); [|reflexivity].
  pose proof (py_lstrip_length t) as Hl. rewrite H in Hl. cbn [length] in Hl. lia.
Qed.

Lemma py_rstrip_length (s : pystr) : (length (py_rstrip s) <= length s)%nat.
Proof.
  unfold py_rstrip. rewrite length_rev.
  pose proof (py_lstrip_length (rev s)) as H. now rewrite length_rev in H.
Qed.

Lemma py_lstrip_same_length (s : pystr) :
  length (py_lstrip s) = length s -> py_lstrip s = s.
Proof.
  destruct s as [|c t]; [reflexivity|]. cbn [py_lstrip].
  destruct (py_isspace c); [|reflexivity].
  pose proof (py_lstrip_length t). cbn [length]. lia.
Qed.

(** A str without leading and trailing whitespace is a fixed point of
    both halves of [py_strip]. *)
Lemma py_strip_fixed (s : pystr) :
  py_strip s = s -> py_lstrip s = s /\ py_rstrip s = s.
Proof.
  intros H. unfold py_strip in H.
  assert (E : py_lstrip s = s).
  { apply py_lstrip_same_length.
    pose proof (py_rstrip_length (py_lstrip s)) as H1. rewrite H in H1.
    pose proof (py_lstrip_length s). lia. }
  split; [exact E|]. now rewrite E in H.
Qed.

Lemma py_rstrip_fixed_app (x s : pystr) :
  s <> [] -> py_rstrip s = s -> py_rstrip (x ++ s) = x ++ s.
Proof.
  intros Hne H. unfold py_rstrip in *. rewrite rev_app_distr.
  assert (E : py_lstrip (rev s) = rev s).
  { rewrite <- H at 2. now rewrite rev_involutive. }
  rewrite py_lstrip_fixed_app; [|intros E0; apply Hne|exact E].
  - now rewrite rev_app_distr, !rev_involutive.
  - rewrite <- (rev_involutive s), E0. reflexivity.
Qed.

Lemma py_split_no_sep (sep : N) (s : pystr) :
  ~ In sep s -> py_split sep s = [s].
Proof.
  induction s as [|c t IH]; intros H; [reflexivity|].
  cbn [py_split]. destruct (N.eqb_spec c sep) as [->|Hne].
  - exfalso. apply H. now left.
  - rewrite IH; [reflexivity|]. intros Hin. apply H. now right.
Qed.

Lemma py_split_app_sep (sep : N) (a b : pystr) :
  ~ In sep a -> py_split sep (a ++ sep :: b) = a :: py_split sep b.
Proof.
  induction a as [|c t IH]; intros H.
  - cbn [app py_split]. now rewrite N.eqb_refl.
  - cbn [app py_split]. destruct (N.eqb_spec c sep) as [->|Hne].
    + exfalso. apply H. now left.
    + rewrite IH; [reflexivity|]. intros Hin. apply H. now right.
Qed.

(** After the guard [py_startswith], the piece [[1]] of the split exists. *)
Lemma split_once_second (line : pystr) :
  In colon line -> exists part, py_index (py_split_once colon line) 1 = Ok part.
Proof.
  induction line as [|c t IH]; intros H; [destruct H|].
  cbn [py_split_once]. destruct (N.eqb_spec c colon) as [->|Hne].
  - exists t. apply (py_index_nat _ 1%nat). reflexivity.
  - destruct H as [H|H]; [congruence|]. destruct (IH H) as [part Hp].
    destruct (py_split_once colon t) as [|piece [|second rest]] eqn:E.
    + discriminate Hp.
    + discriminate Hp.
    + exists second. apply (py_index_nat _ 1%nat). reflexivity.
Qed.

Lemma py_startswith_in (line prefix : pystr) (c : N) :
  py_startswith line prefix = true -> In c prefix -> In c line.
Proof.
  revert line. induction prefix as [|p prefix IH]; intros line H Hin;
    [destruct Hin|].
  destruct line as [|d t]; [discriminate H|]. cbn [py_startswith] in H.
  apply andb_prop in H as [Hd Ht]. apply N.eqb_eq in Hd. subst d.
  destruct Hin as [->|Hin]; [now left|right; now apply IH].
Qed.

Lemma value_of_key (line key : pystr) :
  py_startswith line key = true -> In colon key ->
  exists text, value_of line = Ok text.
Proof.
  intros H Hin. unfold value_of.
  destruct (split_once_second line (py_startswith_in line key colon H Hin))
    as [part ->].
  cbn [rbind]. eauto.
Qed.

Section ParseFacts.

Variable py_int : pystr -> option Z.

Lemma parse_line_ok (d : signal_data) (line : pystr) :
  exists d', parse_line py_int d line = Ok d'.
Proof.
  unfold parse_line. cbv zeta.
  destruct (py_startswith (py_strip line) (str "SIGNAL:")) eqn:E1.
  { destruct (value_of_key _ _ E1) as [text ->]; [cbv; tauto|].
    cbn [rbind]. eauto. }
  destruct (py_startswith (py_strip line) (str "CONFIDENCE:")) eqn:E2; [eauto|].
  destruct (py_startswith (py_strip line) (str "REASONING:")) eqn:E3; [|eauto].
  destruct (value_of_key _ _ E3) as [text ->]; [cbv; tauto|].
  cbn [rbind]. eauto.
Qed.

Lemma parse_lines_ok (lines : list pystr) (d : signal_data) :
  exists d', parse_lines py_int d lines = Ok d'.
Proof.
  revert d. induction lines as [|line rest IH]; intros d; [cbn; eauto|].
  cbn [parse_lines]. destruct (parse_line_ok d line) as [d1 ->].
  cbn [rbind]. apply IH.
Qed.

Lemma parse_line_ignored (d : signal_data) (line : pystr) :
  py_startswith (py_strip line) (str "SIGNAL:") = false ->
  py_startswith (py_strip line) (str "CONFIDENCE:") = false ->
  py_startswith (py_strip line) (str "REASONING:") = false ->
  parse_line py_int d line = Ok d.
Proof. intros H1 H2 H3. unfold parse_line. cbv zeta. now rewrite H1, H2, H3. Qed.

(** X23. [_parse_signal_response] never raises, whatever the answer and
    whatever [int] does: the index [[1]] after [split(':', 1)] is always in
    range behind the [py_startswith] guard.  When no line of the answer, once
    stripped, starts with 'SIGNAL:', 'CONFIDENCE:' or 'REASONING:', the
    empty answer included, the result is the default signal: HOLD,
    confidence 50, 'Unable to parse LLM response'. *)
Theorem parse_signal_response_total (response : pystr) :
  (exists d, _parse_signal_response py_int response = Ok d) /\
  (Forall (fun line =>
             py_startswith (py_strip line) (str "SIGNAL:") = false /\
             py_startswith (py_strip line) (str "CONFIDENCE:") = false /\
             py_startswith (py_strip line) (str "REASONING:") = false)
     (py_split newline (py_strip response)) ->
   _parse_signal_response py_int response
   = Ok {| signal := str "HOLD"; confidence := 50;
           reasoning := str "Unable to parse LLM response" |}) /\
  _parse_signal_response py_int []
  = Ok {| signal := str "HOLD"; confidence := 50;
          reasoning := str "Unable to parse LLM response" |}.
Proof.
  unfold _parse_signal_response. cbv zeta.
  split; [apply parse_lines_ok|]. split; [|reflexivity].
  generalize {| signal := str "HOLD"; confidence := 50;
                reasoning := str "Unable to parse LLM response" |}.
  induction 1 as [|line rest (H1 & H2 & H3) _ IH]; [reflexivity|].
  cbn [parse_lines]. rewrite parse_line_ignored by assumption.
  cbn [rbind]. exact IH.
Qed.

End ParseFacts.

(** A code point that does not occur in a str literal. *)
Ltac absent_from_literal :=
  let H := fresh in
  cbv; intros H;
  repeat (destruct H as [H|H]; [discriminate H|]); exact H.

Lemma split_once_app_sep (a b : pystr) :
  ~ In colon a -> py_split_once colon (a ++ colon :: b) = [a; b].
Proof.
  induction a as [|c t IH]; intros H.
  - reflexivity.
  - cbn [app py_split_once]. destruct (N.eqb_spec c colon) as [->|Hne].
    + exfalso. apply H. now left.
    + rewrite IH; [reflexivity|]. intros Hin. apply H. now right.
Qed.

Lemma py_startswith_app (p x : pystr) : py_startswith (p ++ x) p = true.
Proof.
  induction p as [|c p IH]; [reflexivity|].
  cbn [app py_startswith]. now rewrite N.eqb_refl, IH.
Qed.

Lemma py_strip_between (k0 : N) (mid s : pystr) :
  py_isspace k0 = false -> s <> [] -> py_strip s = s ->
  py_strip (k0 :: mid ++ s) = k0 :: mid ++ s.
Proof.
  intros Hk Hne Hs. apply py_strip_fixed in Hs as [_ Hr].
  unfold py_strip. cbn [py_lstrip]. rewrite Hk.
  now apply (py_rstrip_fixed_app (k0 :: mid)).
Qed.

(** A line [KEY: value] of the format asked from the LLM. *)
Lemma key_line (k0 : N) (krest s : pystr) :
  py_isspace k0 = false -> ~ In colon (k0 :: krest) ->
  py_strip s = s -> s <> [] ->
  py_strip ((k0 :: krest) ++ colon :: 32%N :: s) = (k0 :: krest) ++ colon :: 32%N :: s
  /\ py_startswith ((k0 :: krest) ++ colon :: 32%N :: s) ((k0 :: krest) ++ [colon])
     = true
  /\ value_of ((k0 :: krest) ++ colon :: 32%N :: s) = Ok s.
Proof.
  intros Hk Hc Hs Hne. split; [|split].
  - assert (E : (k0 :: krest) ++ colon :: 32%N :: s
                = k0 :: (krest ++ [colon; 32%N]) ++ s)
      by (cbn [app]; rewrite <- app_assoc; reflexivity).
    rewrite E. now apply py_strip_between.
  - change (colon :: 32%N :: s) with ([colon] ++ 32%N :: s).
    rewrite app_assoc. apply py_startswith_app.
  - unfold value_of. rewrite split_once_app_sep by exact Hc.
    change (py_index [k0 :: krest; 32%N :: s] 1) with (Ok (32%N :: s)).
    cbn [rbind]. f_equal. unfold py_strip.
    change (py_lstrip (32%N :: s)) with (py_lstrip s).
    apply py_strip_fixed in Hs as [-> ->]. reflexivity.
Qed.

Section ParseFormat.

Variable py_int : pystr -> option Z.

(** X24. An answer in the format that the prompt asks for is read back
    field by field.  For a signal [s], a confidence text [c] and a
    reasoning [r], each non-empty, without newline and without leading or
    trailing whitespace, the answer
    [SIGNAL: s / CONFIDENCE: c / REASONING: r] (one per line) parses to
    the signal [s], whatever it is (no check against BUY, SELL or HOLD),
    the reasoning [r], and the confidence [int(c)], or 50 when [int]
    raises on [c]. *)
Theorem parse_signal_response_format (s c r : pystr) :
  py_strip s = s -> s <> [] -> ~ In newline s ->
  py_strip c = c -> c <> [] -> ~ In newline c ->
  py_strip r = r -> r <> [] -> ~ In newline r ->
  _parse_signal_response py_int
    (str "SIGNAL: " ++ s ++ newline :: str "CONFIDENCE: " ++ c
       ++ newline :: str "REASONING: " ++ r)
  = Ok {| signal := s;
          confidence := match py_int c with Some n => n | None => 50%Z end;
          reasoning := r |}.
Proof.
  intros Hs Hs0 Hsn Hc Hc0 Hcn Hr Hr0 Hrn.
  unfold _parse_signal_response. cbv zeta.
  set (L1 := str "SIGNAL" ++ colon :: 32%N :: s).
  set (L2 := str "CONFIDENCE" ++ colon :: 32%N :: c).
  set (L3 := str "REASONING" ++ colon :: 32%N :: r).
  change (str "SIGNAL: " ++ s ++ newline :: str "CONFIDENCE: " ++ c
            ++ newline :: str "REASONING: " ++ r)
    with (L1 ++ newline :: L2 ++ newline :: L3).
  destruct (key_line 83%N (str "IGNAL") s eq_refl ltac:(absent_from_literal) Hs Hs0)
    as (S1 & S2 & S3).
  destruct (key_line 67%N (str "ONFIDENCE") c eq_refl ltac:(absent_from_literal) Hc Hc0)
    as (C1 & C2 & C3).
  destruct (key_line 82%N (str "EASONING") r eq_refl ltac:(absent_from_literal) Hr Hr0)
    as (R1 & R2 & R3).
  change (83%N :: str "IGNAL") with (str "SIGNAL") in *.
  change (67%N :: str "ONFIDENCE") with (str "CONFIDENCE") in *.
  change (82%N :: str "EASONING") with (str "REASONING") in *.
  fold L1 in S1, S2, S3. fold L2 in C1, C2, C3. fold L3 in R1, R2, R3.
  assert (N1 : ~ In newline L1).
  { unfold L1. rewrite in_app_iff. intros [H|[H|[H|H]]];
      [revert H; absent_from_literal|discriminate H|discriminate H|contradiction]. }
  assert (N2 : ~ In newline L2).
  { unfold L2. rewrite in_app_iff. intros [H|[H|[H|H]]];
      [revert H; absent_from_literal|discriminate H|discriminate H|contradiction]. }
  assert (N3 : ~ In newline L3).
  { unfold L3. rewrite in_app_iff. intros [H|[H|[H|H]]];
      [revert H; absent_from_literal|discriminate H|discriminate H|contradiction]. }
  assert (Eouter : py_strip (L1 ++ newline :: L2 ++ newline :: L3)
                   = L1 ++ newline :: L2 ++ newline :: L3).
  { unfold L3. 
    change (L1 ++ newline :: L2 ++ newline :: str "REASONING" ++ colon :: 32%N :: r)
      with (83%N :: (str "IGNAL" ++ colon :: 32%N :: s)
                 ++ newline :: L2 ++ newline :: str "REASONING" ++ colon :: 32%N :: r).
    replace ((str "IGNAL" ++ colon :: 32%N :: s)
               ++ newline :: L2 ++ newline :: str "REASONING" ++ colon :: 32%N :: r)
      with (((str "IGNAL" ++ colon :: 32%N :: s)
               ++ newline :: L2 ++ newline :: str "REASONING" ++ [colon; 32%N]) ++ r)
      by (rewrite <- !app_assoc; cbn [app]; rewrite <- !app_assoc; reflexivity).
    now apply py_strip_between. }
  rewrite Eouter.
  rewrite py_split_app_sep by exact N1.
  rewrite py_split_app_sep by exact N2.
  rewrite py_split_no_sep by exact N3.
  cbn [parse_lines].
  unfold parse_line at 1. cbv zeta. rewrite S1.
  change (str "SIGNAL:") with (str "SIGNAL" ++ [colon]). rewrite S2, S3.
  cbn [rbind signal confidence reasoning].
  unfold parse_line at 1. cbv zeta. rewrite C1.
  assert (F1 : py_startswith L2 (str "SIGNAL:") = false) by reflexivity.
  rewrite F1.
  change (str "CONFIDENCE:") with (str "CONFIDENCE" ++ [colon]). rewrite C2, C3.
  cbn [rbind signal confidence reasoning].
  unfold parse_line at 1. cbv zeta. rewrite R1.
  assert (F2 : py_startswith L3 (str "SIGNAL:") = false) by reflexivity.
  assert (F3 : py_startswith L3 (str "CONFIDENCE:") = false) by reflexivity.
  rewrite F2, F3.
  change (str "REASONING:") with (str "REASONING" ++ [colon]). rewrite R2, R3.
  reflexivity.
Qed.

End ParseFormat.

Lemma parse_signal_response_format_witness :
  _parse_signal_response (fun _ => Some 85%Z)
    (str "SIGNAL: " ++ str "STRONG_BUY" ++ newline :: str "CONFIDENCE: " ++ str "85"
       ++ newline :: str "REASONING: " ++ str "RSI is oversold.")
  = Ok {| signal := str "STRONG_BUY";
          confidence := match (fun _ : pystr => Some 85%Z) (str "85") with
                        | Some n => n
                        | None => 50%Z
                        end;
          reasoning := str "RSI is oversold." |}.
Proof.
  apply (parse_signal_response_format (fun _ => Some 85%Z)
           (str "STRONG_BUY") (str "85") (str "RSI is oversold."));
    try reflexivity; try discriminate; absent_from_literal.
Defined.

(** ** From the inputs to the signal *)

Section SignalFacts.

Variable py_int : pystr -> option Z.
Variable str_of_exception : exn -> pystr.
Variable none_has_no_strip : pystr.

(** X25. What the agent answers when the LLM fails, the inputs being
    there.  When the request raises, [chat_completion] hands back an empty
    content, which parses to the default: HOLD with confidence 50 and
    'Unable to parse LLM response'.  When the answer has no choice, or a
    null content, [_generate_signal] catches the exception: HOLD with
    confidence 0 and 'LLM error: ...'.  Otherwise the signal is the parse
    of the first choice. *)
Theorem generate_signal_llm_failures
    (request : pystr -> LLMConnector.api_result) (prompt : pystr) :
  (request prompt = LLMConnector.ApiRaised ->
   _generate_signal py_int str_of_exception none_has_no_strip
     (Some request) false false prompt
   = hold 50 (str "Unable to parse LLM response")) /\
  (request prompt = LLMConnector.ApiChoices [] ->
   _generate_signal py_int str_of_exception none_has_no_strip
     (Some request) false false prompt
   = hold 0 (str "LLM error: " ++ str_of_exception IndexError)) /\
  (forall rest, request prompt = LLMConnector.ApiChoices (None :: rest) ->
   _generate_signal py_int str_of_exception none_has_no_strip
     (Some request) false false prompt
   = hold 0 (str "LLM error: " ++ none_has_no_strip)) /\
  (forall text rest,
     request prompt = LLMConnector.ApiChoices (Some text :: rest) ->
     _parse_signal_response py_int text
     = Ok (_generate_signal py_int str_of_exception none_has_no_strip
             (Some request) false false prompt)).
Proof.
  unfold _generate_signal. cbn [orb].
  split; [|split; [|split]].
  - intros ->. reflexivity.
  - intros ->. reflexivity.
  - intros rest ->. unfold LLMConnector.generate, LLMConnector.chat_completion.
    now rewrite py_index_head.
  - intros text rest ->.
    unfold LLMConnector.generate, LLMConnector.chat_completion.
    rewrite py_index_head.
    destruct (parse_lines_ok py_int (py_split newline (py_strip text))
                {| signal := str "HOLD"; confidence := 50;
                   reasoning := str "Unable to parse LLM response" |})
      as [d Hd].
    unfold _parse_signal_response. cbv zeta. now rewrite Hd.
Qed.

Section Cycle.

Context {P V : Type}.
Variable format_value : V -> string.
Variable compound : string -> Q.
Variable sentiment_threshold : Q.
Variable http_get : Z -> option (NewsAPIConnector.news_data (gmap string V)).
Variable request : pystr -> LLMConnector.api_result.
Variable prompt : input_entry (P * npfloat * string) ->
                  input_entry (NewsSentimentInput.report V) -> pystr.

(** X26. Without its data the agent holds and does not ask the LLM.  With
    both plugins loaded, the signal of a cycle is HOLD with confidence 0
    and 'Insufficient data', whatever the LLM would answer, in each of
    these cases: the news plugin has no article ([news_limit] below 1, or
    every request failing); every price source is unavailable; the RSI
    raises, as it does on an empty history with [rsi_period <= 0] or on a
    candle without ['close']. *)
Theorem cycle_holds_on_missing_data
    (price : option P) (historical : list pyobj) (rsi_period news_limit : Z)
    (news : NewsSentimentInput.report V) :
  ((news_limit <= 0)%Z \/ (forall page, http_get page = None) ->
   cycle_signal py_int str_of_exception none_has_no_strip (Some request)
     true price historical rsi_period true
     (NewsSentimentInput.fetch format_value compound sentiment_threshold
        http_get news_limit) prompt
   = hold 0 (str "Insufficient data")) /\
  (cycle_signal py_int str_of_exception none_has_no_strip (Some request)
     true None historical rsi_period true news prompt
   = hold 0 (str "Insufficient data")) /\
  (forall e, BitcoinPriceInput.fetch_rsi_signal historical rsi_period = Raise e ->
   cycle_signal py_int str_of_exception none_has_no_strip (Some request)
     true price historical rsi_period true news prompt
   = hold 0 (str "Insufficient data")) /\
  ((rsi_period <= 0)%Z -> BitcoinPriceInput.fetch_rsi_signal [] rsi_period = Raise IndexError) /\
  (forall cs : list (gmap string Q),
     (rsi_period <= len cs)%Z ->
     Exists (fun c : gmap string Q => c !! "close"%string = None) cs ->
     BitcoinPriceInput.fetch_rsi_signal (candles cs) rsi_period = Raise KeyError).
Proof.
  split; [|split; [|split; [|split]]].
  - intros H. unfold cycle_signal. cbv zeta.
    assert (E : NewsSentimentInput.fetch format_value compound
                  sentiment_threshold http_get news_limit
                = NewsSentimentInput.fetch_articles format_value compound
                    sentiment_threshold []).
    { unfold NewsSentimentInput.fetch. destruct H as [H|H].
      - now rewrite get_latest_news_nonpositive.
      - unfold NewsAPIConnector.get_latest_news. cbv zeta.
        rewrite get_multiple_pages_concat.
        assert (E : concat (map (fun page => match http_get page with
                           | Some data => NewsAPIConnector.page_articles data
                           | None => []
                           end) (py_range 1 (news_limit / 10 + 1 + 1))) = []).
        { induction (py_range 1 (news_limit / 10 + 1 + 1)) as [|p ps IH];
            [reflexivity|]. cbn [map concat]. now rewrite H, IH. }
        rewrite E. now rewrite py_slice_to_nil. }
    rewrite E. unfold _generate_signal, collect. cbn [has_error].
    change (news_has_error
              (NewsSentimentInput.fetch_articles format_value compound
                 sentiment_threshold [])) with true.
    now rewrite orb_true_r.
  - reflexivity.
  - intros e He. unfold cycle_signal. cbv zeta. rewrite He.
    destruct price; reflexivity.
  - intros Hp. unfold BitcoinPriceInput.fetch_rsi_signal, BitcoinPriceInput.fetch_rsi.
    change (len (@nil pyobj)) with 0%Z.
    apply Z.leb_le in Hp. now rewrite Hp.
  - intros cs Hlen Hmiss. unfold BitcoinPriceInput.fetch_rsi_signal, BitcoinPriceInput.fetch_rsi.
    rewrite len_candles. apply Z.leb_le in Hlen. rewrite Hlen.
    now rewrite comprehension_get_close_missing.
Qed.

End Cycle.

End SignalFacts.
